(** * AdaptDL on Ray: placement-group codec, trial lifecycle, test allocators

    A shallow embedding of
      - ray/adaptdl_ray/adaptdl/adaptdl_job_mixin.py  (AdaptDLJobMixin),
      - ray/adaptdl_ray/tune/adaptdl_trial.py         (AdaptDLTrial),
      - ray/adaptdl_ray/tests/test_trial_sched.py     (the allocators),
    followed by the properties of the scheduler specification that these
    functions decide. *)

From Stdlib Require Import ZArith QArith String Ascii List Lia Bool.
From Stdlib Require Import Sorted Permutation.
From stdpp Require Import base gmap.
Import ListNotations.

Close Scope Q_scope.
Open Scope string_scope.
Open Scope Z_scope.
Open Scope list_scope.

(** ** Python values and exceptions *)

Module Py.

(** The exceptions the embedded code can raise by itself. *)
Inductive exn : Type :=
| AssertionError
| IndexError
| KeyError
| ValueError
| AttributeError
| TypeError.

Inductive result (A : Type) : Type :=
| Ok (a : A)
| Raise (e : exn).
Arguments Ok {A} a.
Arguments Raise {A} e.

Definition bind {A B} (r : result A) (k : A -> result B) : result B :=
  match r with
  | Ok a => k a
  | Raise e => Raise e
  end.

Definition assert (b : bool) : result unit :=
  if b then Ok tt else Raise AssertionError.

(** A number stored in a resource dictionary: an [int] or a finite
    [float].  The float literals of the source (0.01, 0.001) are kept as
    exact fractions; the code only stores them and truncates them with
    [int].  The floats that are not finite (inf, nan), on which [int]
    raises, are not values of this type: what is proved of a dictionary
    is proved of one that holds ints and finite floats. *)
Inductive number : Type :=
| PyInt (z : Z)
| PyFloat (q : Q).

(** [int(v)]: the identity on an int, truncation toward zero on a float. *)
Definition int (v : number) : Z :=
  match v with
  | PyInt z => z
  | PyFloat q => Z.quot (Qnum q) (Zpos (Qden q))
  end.

(** [a - b] on numbers: an int only when both operands are ints.  The
    difference is the exact one.  That is Python's on two ints, and on a
    float and an int when both and their difference are whole numbers of
    magnitude at most 2^53, which binary64 holds exactly; the properties
    that subtract a float say so in a hypothesis (see [cpus]). *)
Definition sub (a b : number) : number :=
  match a, b with
  | PyInt x, PyInt y => PyInt (x - y)
  | PyInt x, PyFloat q => PyFloat (Qminus (inject_Z x) q)
  | PyFloat p, PyInt y => PyFloat (Qminus p (inject_Z y))
  | PyFloat p, PyFloat q => PyFloat (Qminus p q)
  end.

(** A [dict] with string keys, in insertion order. *)
Definition dict (V : Type) : Type := list (string * V).

(** [d[k] = v]: overwrite in place when the key is present, append
    otherwise. *)
Fixpoint setitem {V} (d : dict V) (k : string) (v : V) : dict V :=
  match d with
  | [] => [(k, v)]
  | (k', v') :: d' =>
      if String.eqb k' k then (k', v) :: d' else (k', v') :: setitem d' k v
  end.

(** [d.get(k)] *)
Fixpoint get {V} (d : dict V) (k : string) : option V :=
  match d with
  | [] => None
  | (k', v') :: d' => if String.eqb k' k then Some v' else get d' k
  end.

(** [d.get(k, default)] *)
Definition get_default {V} (d : dict V) (k : string) (default : V) : V :=
  match get d k with
  | Some v => v
  | None => default
  end.

(** [d[k]], raising [KeyError] on a missing key. *)
Definition getitem {V} (d : dict V) (k : string) : result V :=
  match get d k with
  | Some v => Ok v
  | None => Raise KeyError
  end.

(** [k.startswith(p)] *)
Definition startswith (k p : string) : bool := String.prefix p k.

(** [s.split(sep)] for a one-character separator: never empty. *)
Fixpoint split (sep : ascii) (s : string) : list string :=
  match s with
  | EmptyString => [EmptyString]
  | String c s' =>
      if Ascii.eqb c sep then EmptyString :: split sep s'
      else match split sep s' with
           | [] => [String c EmptyString]
           | w :: ws => String c w :: ws
           end
  end.

(** [l[i]], raising [IndexError] out of range (non-negative [i]). *)
Definition index_at {A} (l : list A) (i : nat) : result A :=
  match nth_error l i with
  | Some a => Ok a
  | None => Raise IndexError
  end.

(** [[x] * n]: empty for a non-positive [n]. *)
Definition replicate {A} (x : A) (n : Z) : list A := repeat x (Z.to_nat n).

(** A list comprehension whose element expression can raise. *)
Fixpoint traverse {A B} (f : A -> result B) (l : list A) : result (list B) :=
  match l with
  | [] => Ok []
  | a :: l' =>
      bind (f a) (fun b => bind (traverse f l') (fun bs => Ok (b :: bs)))
  end.

(** [Counter(l)]: one entry per distinct element, in order of first
    occurrence, holding its number of occurrences. *)
Fixpoint counter_incr (c : dict Z) (x : string) : dict Z :=
  match c with
  | [] => [(x, 1)]
  | (k, n) :: c' =>
      if String.eqb k x then (k, n + 1) :: c' else (k, n) :: counter_incr c' x
  end.

Definition Counter (l : list string) : dict Z := fold_left counter_incr l [].

(** [sum(l)] over ints *)
Definition sum (l : list Z) : Z := fold_left Z.add l 0.

(** [l.index(x)]: the first position holding [x], [ValueError] if none. *)
Fixpoint index (l : list nat) (x : nat) : result nat :=
  match l with
  | [] => Raise ValueError
  | y :: l' =>
      if Nat.eqb y x then Ok O
      else bind (index l' x) (fun i => Ok (S i))
  end.

(** [l.pop(i)] for an index in range: the list without position [i]. *)
Fixpoint pop {A} (l : list A) (i : nat) : list A :=
  match l, i with
  | [], _ => []
  | _ :: l', O => l'
  | y :: l', S i' => y :: pop l' i'
  end.

(** [del d[k]]: the dict without the key, [KeyError] when it is
    missing. *)
Fixpoint delitem {V} (d : dict V) (k : string) : result (dict V) :=
  match d with
  | [] => Raise KeyError
  | (k', v') :: d' =>
      if String.eqb k' k then Ok d'
      else bind (delitem d' k) (fun d'' => Ok ((k', v') :: d''))
  end.

End Py.

Abbreviation Ok := Py.Ok.
Abbreviation Raise := Py.Raise.
Abbreviation PyInt := Py.PyInt.
Abbreviation PyFloat := Py.PyFloat.

Notation "x <- c1 ;; c2" := (Py.bind c1 (fun x => c2))
  (at level 100, c1 at next level, right associativity).
Notation "c1 ;;; c2" := (Py.bind c1 (fun _ => c2))
  (at level 100, right associativity).

(** ** Data of the host runtime and of the configuration *)

(** Modelled from the spec: [config.default_device()] belongs to
    adaptdl_ray.adaptdl.config, which is not among the sources.  The
    specification names two primary resource kinds, CPU and GPU; the
    function returns the key of one of them. *)
Inductive device : Type := CPU | GPU.

Definition device_key (d : device) : string :=
  match d with
  | CPU => "CPU"
  | GPU => "GPU"
  end.

(** A resource bundle is a [dict] from resource key to quantity. *)
Definition bundle : Type := Py.dict Py.number.

(** [tune.PlacementGroupFactory(bundles)] of the host runtime: the code
    only reads the bundles back through [_bundles]. *)
Record PlacementGroupFactory : Type := mkPGF { _bundles : list bundle }.

Definition colon : ascii := ":"%char.

(** [Trial.status] *)
Inductive Status : Type := PENDING | RUNNING | PAUSED | TERMINATED | ERROR.

Definition Status_eqb (a b : Status) : bool :=
  match a, b with
  | PENDING, PENDING | RUNNING, RUNNING | PAUSED, PAUSED
  | TERMINATED, TERMINATED | ERROR, ERROR => true
  | _, _ => false
  end.

Definition path_eqb (a b : option string) : bool :=
  match a, b with
  | Some x, Some y => String.eqb x y
  | None, None => true
  | _, _ => false
  end.

(** [TrialRunner]: the list of trials the runner schedules from and its
    set of live trials.  Trials are held by reference: an object is
    named by its identity. *)
Record TrialRunner : Type := mkRunner {
  _trials : list nat;
  _live_trials : gset nat
}.

(** [NodeInfo(resources, ...)] as the test allocators read it. *)
Record NodeInfo : Type := mkNodeInfo { resources : Py.dict Py.number }.

(** [IncrAllocator]: the node table its base class sets up and its two
    counters. *)
Record IncrAllocator : Type := mkIncrAllocator {
  _node_infos : Py.dict NodeInfo;
  _avail_cpus : Z;
  _cur_cpus : Z
}.

Definition NUM_CPUS_CLUSTER : Z := 5.

(** The node table of the test's cluster: [ray.init(num_cpus=
    NUM_CPUS_CLUSTER)] starts a single node with that many CPUs, a
    float in the node's resources, next to its other resources. *)
Definition test_cluster (node : string) (others : Py.dict Py.number)
  : Py.dict NodeInfo :=
  [(node, mkNodeInfo (("CPU", PyFloat (inject_Z NUM_CPUS_CLUSTER)) :: others))].

(** ** Pickling a trial (AdaptDLTrial.__getstate__) *)

(** The value of an attribute in a trial's [__dict__] or in the state
    to pickle: None, False, a new [Location()], the JSON form of a
    value ([resources_to_json]), the hex dump of a pickled value
    ([binary_to_hex(cloudpickle.dumps(...))]), or any other value. *)
Inductive attr (Value : Type) : Type :=
| AttrNone
| AttrFalse
| AttrLocation
| AttrJson (v : attr Value)
| AttrHex (v : attr Value)
| AttrValue (v : Value).
Arguments AttrNone {Value}.
Arguments AttrFalse {Value}.
Arguments AttrLocation {Value}.
Arguments AttrJson {Value} v.
Arguments AttrHex {Value} v.
Arguments AttrValue {Value} v.

(** [__getstate__(self)], on the trial's [__dict__]; [self_resources]
    is what [self.resources] evaluates to and [_nonjson_fields] the
    attribute names the host's [Trial] lists under that name.  The deep
    copy at the end returns equal values. *)
Definition __getstate__ {Value : Type} (_nonjson_fields : list string)
    (self_resources : attr Value) (__dict__ : Py.dict (attr Value))
  : Py.result (Py.dict (attr Value)) :=
  let state := __dict__ in
  state <- Py.delitem state "_trial_in_use" ;;
  state <- Py.delitem state "_cached_metrics" ;;
  let state := Py.setitem state "resources" (AttrJson self_resources) in
  let state :=
    fold_left
      (fun state key =>
         Py.setitem state key (AttrHex (Py.get_default state key AttrNone)))
      _nonjson_fields state in
  let state := Py.setitem state "runner" AttrNone in
  let state := Py.setitem state "location" AttrLocation in
  let state := Py.setitem state "restoring_from" AttrNone in
  let state := Py.setitem state "saving_to" AttrNone in
  let state := Py.setitem state "_state_json" AttrNone in
  let state := Py.setitem state "_state_valid" AttrFalse in
  Ok state.

Section AdaptDL.

(** Values owned by the host runtime and the performance model. *)
Variables (TrainFn Config Actor CheckpointObj : Type).
Variables (PerfParams GradParams Resources : Type).

(** adaptdl_ray.adaptdl.config, which is not among the sources. *)
Variable default_device : device.
Variable job_resources : Resources.
Variables (_JOB_MIN_REPLICAS _JOB_MAX_REPLICAS : Z).

(** *** The placement-group codec (AdaptDLJobMixin) *)

(** [_construct_bundle(node, device_count)] (nested in allocation_to_pgf) *)
Definition _construct_bundle (node : string) (device_count : Z) : bundle :=
  let resources :=
    Py.setitem
      (Py.setitem [] (device_key default_device) (PyInt device_count))
      ("node:" ++ node) (PyFloat (1 # 100)) in
  if String.eqb (device_key default_device) "GPU"
  then Py.setitem resources "CPU" (PyInt device_count)
  else resources.

(** [allocation_to_pgf(alloc)] *)
Definition allocation_to_pgf (alloc : list string)
  : Py.result PlacementGroupFactory :=
  Py.assert (0 <? Z.of_nat (length alloc)) ;;;
  let resources := [ [("CPU", PyFloat (1 # 100))] ] in
  let alloc := Py.Counter alloc in
  let resources :=
    fold_left (fun rs '(node, res) => rs ++ [_construct_bundle node res])
              alloc resources in
  Ok (mkPGF resources).

(** The two comprehensions of the first loop of pgf_to_allocation. *)
Definition bundle_node_keys (b : bundle) : Py.result (list string) :=
  Py.traverse (fun '(k, _) => Py.index_at (Py.split colon k) 1)
              (List.filter (fun '(k, _) => Py.startswith k "node") b).

Definition bundle_num_devices (b : bundle) : list Z :=
  map (fun '(_, v) => Py.int v)
      (List.filter
         (fun '(k, _) => String.eqb k (device_key default_device)) b).

Fixpoint collect_bundles (bundles : list bundle)
    (node_keys : list string) (num_devices : list Z)
  : Py.result (list string * list Z) :=
  match bundles with
  | [] => Ok (node_keys, num_devices)
  | b :: bundles' =>
      ks <- bundle_node_keys b ;;
      collect_bundles bundles' (node_keys ++ ks)
                      (num_devices ++ bundle_num_devices b)
  end.

(** [pgf_to_allocation(pgf)] *)
Definition pgf_to_allocation (pgf : PlacementGroupFactory)
  : Py.result (list string) :=
  let bundles := tl (_bundles pgf) in
  p <- collect_bundles bundles [] [] ;;
  let '(node_keys, num_devices) := p in
  Ok (fold_left
        (fun allocs '(node, count) => allocs ++ Py.replicate node count)
        (combine node_keys num_devices) []).

(** [_pgf_to_num_replicas(pgf)] *)
Definition _pgf_to_num_replicas (pgf : PlacementGroupFactory) : Z :=
  Py.sum
    (map (fun b =>
            Py.int (Py.get_default b (device_key default_device) (PyInt 0)))
         (tl (_bundles pgf))).

(** *** Performance model handed to the allocator (job_info) *)

(** What [get_sched_hints] of a trial's actor returns. *)
Record SchedHints : Type := mkSchedHints {
  perf_params : PerfParams;
  grad_params : GradParams
}.

(** [GoodputFunction(perf_params, grad_params, init_batch_size)] *)
Record GoodputFunction : Type := mkGoodputFunction {
  goodput_perf_params : PerfParams;
  goodput_grad_params : GradParams;
  init_batch_size : Z
}.

(** The speedup function of a [JobInfo]: the model-derived
    [SpeedupFunction(goodput_fn, max_batch_size, atomic_bsz_range)] or a
    plain [lambda n, r: ...]. *)
Inductive speedup : Type :=
| SpeedupFunction (goodput_fn : GoodputFunction) (max_batch_size : Z)
                  (atomic_bsz_range : Z * Z)
| Lambda (f : Z -> Z -> Z).

(** [JobInfo(resources, speedup_fn, creation_timestamp, min_replicas,
    max_replicas)] *)
Record JobInfo : Type := mkJobInfo {
  job_resources_requested : Resources;
  speedup_fn : speedup;
  job_creation_timestamp : Z;
  min_replicas : Z;
  max_replicas : Z
}.

(** *** Trials *)

(** A trainable class as the code reads it: the training function, the
    number of workers it spawns and its rescale group. *)
Record TrainableCls : Type := mkTrainableCls {
  _function : TrainFn;
  _num_workers : Z;
  group : Z
}.

(** The attributes of the host's [Trial] that the code reads or writes.
    [oid] is the identity of the object.  The host resolves
    [trainable_name] to the class through its registry; the record holds
    the class, which is what [get_trainable_cls()] returns. *)
Record Trial : Type := mkTrial {
  oid : nat;
  trainable : TrainableCls;
  config : Config;
  experiment_tag : string;
  trial_id : string;
  restore_path : option string;
  local_dir : string;
  logdir : option string;
  placement_group_factory : option PlacementGroupFactory;
  status : Status;
  runner : option Actor
}.

Definition get_trainable_cls (t : Trial) : TrainableCls := trainable t.

(** [AdaptDLTrial(AdaptDLJobMixin, Trial)]: the host's trial together
    with the attributes the two classes add.  [_trial_in_use] tells
    whether the placement-group manager's [trial_in_use] has been
    attached. *)
Record AdaptDLTrial : Type := mkAdaptDLTrial {
  as_Trial : Trial;
  rescale_count : Z;
  _cached_metrics : option SchedHints;
  _job_id : string;
  creation_timestamp : Z;
  _trial_in_use : bool
}.

(** A trial handed to [create_from]: a plain [Trial] or an
    [AdaptDLTrial] ([isinstance(trial, AdaptDLTrial)]). *)
Inductive trial : Type :=
| Plain (t : Trial)
| Adapt (t : AdaptDLTrial).

Definition trial_base (t : trial) : Trial :=
  match t with
  | Plain t => t
  | Adapt t => as_Trial t
  end.

Definition set_restore_path (p : option string) (t : Trial) : Trial :=
  mkTrial (oid t) (trainable t) (config t) (experiment_tag t) (trial_id t)
          p (local_dir t) (logdir t) (placement_group_factory t)
          (status t) (runner t).

Definition set_placement_group_factory (f : option PlacementGroupFactory)
    (t : Trial) : Trial :=
  mkTrial (oid t) (trainable t) (config t) (experiment_tag t) (trial_id t)
          (restore_path t) (local_dir t) (logdir t) f (status t) (runner t).

Definition with_Trial (f : Trial -> Trial) (t : AdaptDLTrial)
  : AdaptDLTrial :=
  mkAdaptDLTrial (f (as_Trial t)) (rescale_count t) (_cached_metrics t)
                 (_job_id t) (creation_timestamp t) (_trial_in_use t).

Definition set_cached_metrics (m : option SchedHints) (t : AdaptDLTrial)
  : AdaptDLTrial :=
  mkAdaptDLTrial (as_Trial t) (rescale_count t) m (_job_id t)
                 (creation_timestamp t) (_trial_in_use t).

Definition set_trial_in_use (b : bool) (t : AdaptDLTrial) : AdaptDLTrial :=
  mkAdaptDLTrial (as_Trial t) (rescale_count t) (_cached_metrics t)
                 (_job_id t) (creation_timestamp t) b.

(** [AdaptDLTrial._num_replicas] *)
Definition _num_replicas (self : AdaptDLTrial) : Z :=
  _num_workers (get_trainable_cls (as_Trial self)).

(** [AdaptDLJobMixin.job_id] *)
Definition job_id (self : AdaptDLTrial) : string := _job_id self.

(** The keyword arguments of a constructor call: those that
    [_clone_from] passes.  [creation_timestamp] and [rescale_count] are
    [None] in a call that leaves them out. *)
Record Kwargs : Type := mkKwargs {
  kw_trainable : TrainableCls;
  kw_creation_timestamp : option Z;
  kw_rescale_count : option Z;
  kw_config : Config;
  kw_experiment_tag : string;
  kw_trial_id : string;
  kw_restore_path : option string;
  kw_local_dir : string;
  kw_placement_group_factory : option PlacementGroupFactory
}.

(** *** The world: the trial runner and the calls into the host *)

(** Every point at which the code hands control to the host runtime. *)
Inductive Call : Type :=
| DatetimeNow
| CreateTrainable (cls : TrainableCls)
| NewTrial (o : nat)
| GetSchedHints (a : Actor)
| GetState (a : Actor)
| SaveAllStates (a : Actor)
| MkTempCheckpointDir (dir : option string)
| CreateFromPickle (obj : CheckpointObj) (dir : string)
| StopTrial (o : nat)
| ReconcilePlacementGroups (trials : list AdaptDLTrial)
| TrialInUse (o : nat).

(** The state the code runs in: the next free object identity, the
    trial runner, and the calls made into the host so far, each with
    the runner as the host could see it when it was called. *)
Record World : Type := mkWorld {
  next_oid : nat;
  trial_runner : TrialRunner;
  host_log : list (Call * TrialRunner)
}.

(** What the host answers, as a function of the world it is called in. *)
Variable datetime_now : World -> Z.
Variable get_sched_hints : World -> Actor -> option SchedHints.
Variable save_all_states : World -> Actor -> CheckpointObj.
Variable mk_temp_checkpoint_dir : World -> option string -> string.
Variable create_from_pickle : World -> CheckpointObj -> string -> string.
Variable trial_in_use : World -> nat -> bool.

(** Code that reads and writes the world and may raise. *)
Definition M (A : Type) : Type := World -> Py.result A * World.

Definition ret {A} (a : A) : M A := fun w => (Ok a, w).

Definition raise {A} (e : Py.exn) : M A := fun w => (Raise e, w).

Definition mbind {A B} (m : M A) (k : A -> M B) : M B :=
  fun w =>
    match m w with
    | (Py.Ok a, w') => k a w'
    | (Py.Raise e, w') => (Raise e, w')
    end.

Definition lift {A} (r : Py.result A) : M A := fun w => (r, w).

(** The world once a call into the host has been recorded. *)
Definition recorded (c : Call) (w : World) : World :=
  mkWorld (next_oid w) (trial_runner w)
          (host_log w ++ [(c, trial_runner w)]).

(** A call into the host: its answer, and the call recorded. *)
Definition host {A} (c : Call) (answer : World -> A) : M A :=
  fun w => (Ok (answer w), recorded c w).

Definition get_runner : M TrialRunner := fun w => (Ok (trial_runner w), w).

Definition put_runner (r : TrialRunner) : M unit :=
  fun w => (Ok tt, mkWorld (next_oid w) r (host_log w)).

Notation "x <~ c1 ;; c2" := (mbind c1 (fun x => c2))
  (at level 100, c1 at next level, right associativity).
Notation "c1 ;;~ c2" := (mbind c1 (fun _ => c2))
  (at level 100, right associativity).

(** *** Constructors *)

(** Modelled from the spec: [AdaptDLTrainableCreator] belongs to
    adaptdl_ray.tune.adaptdl_trainable, which is not among the sources.
    The clone spawns a process group sized to the replica count it is
    given; the class it returns records its three arguments.  The call
    leaves the sources, so it is recorded. *)
Definition AdaptDLTrainableCreator (func : TrainFn) (num_workers : Z)
    (group : Z) : M TrainableCls :=
  let cls := mkTrainableCls func num_workers group in
  host (CreateTrainable cls) (fun _ => cls).

(** [Trial.__init__] of the host, which is outside the sources.  Its
    parameter list is fixed: it has the keywords [trainable_name],
    [config], [experiment_tag], [trial_id], [restore_path], [local_dir]
    and [placement_group_factory] that [_clone_from] passes, and it has
    no [creation_timestamp]; a call with that keyword raises TypeError
    before the host runs and before any attribute is set.  Otherwise it
    builds the record from its keywords, with no actor and no log
    directory yet, in status PENDING. *)
Definition Trial_init (kw : Kwargs) : M Trial :=
  match kw_creation_timestamp kw with
  | Some _ => raise Py.TypeError
  | None =>
      fun w =>
        let o := next_oid w in
        (Ok (mkTrial o (kw_trainable kw) (kw_config kw)
                     (kw_experiment_tag kw) (kw_trial_id kw)
                     (kw_restore_path kw) (kw_local_dir kw)
                     None (kw_placement_group_factory kw) PENDING None),
         recorded (NewTrial o)
                  (mkWorld (S o) (trial_runner w) (host_log w)))
  end.

(** [AdaptDLJobMixin.__init__]: pops [job_id], sets
    [creation_timestamp] from the clock and passes every other keyword
    on, a [creation_timestamp] keyword among them.  It returns the two
    attributes it sets and the trial. *)
Definition AdaptDLJobMixin_init (job_id : string) (kw : Kwargs)
  : M (string * Z * Trial) :=
  let _job_id := job_id in
  creation_timestamp <~ host DatetimeNow datetime_now ;;
  t <~ Trial_init kw ;;
  ret (_job_id, creation_timestamp, t).

(** [AdaptDLTrial.__init__]: pops [rescale_count] (0 when absent) and
    calls the mixin's constructor with [job_id] set to [trial_id]. *)
Definition AdaptDLTrial_init (kw : Kwargs) : M AdaptDLTrial :=
  let rescale_count :=
    match kw_rescale_count kw with
    | Some n => n
    | None => 0
    end in
  let _cached_metrics := None in
  p <~ AdaptDLJobMixin_init (kw_trial_id kw) kw ;;
  let '(_job_id, creation_timestamp, t) := p in
  ret (mkAdaptDLTrial t rescale_count _cached_metrics _job_id
                      creation_timestamp false).

(** *** AdaptDLTrial *)

(** [_requeue(self, old_trial, trial_runner)] *)
Definition _requeue (self : AdaptDLTrial) (old_trial : trial) : M unit :=
  host (StopTrial (oid (trial_base old_trial))) (fun _ => tt) ;;~
  r <~ get_runner ;;
  i <~ lift (Py.index (_trials r) (oid (trial_base old_trial))) ;;
  put_runner (mkRunner (Py.pop (_trials r) i) (_live_trials r)) ;;~
  r <~ get_runner ;;
  put_runner (mkRunner (_trials r ++ [oid (as_Trial self)])
                       (_live_trials r)) ;;~
  r <~ get_runner ;;
  put_runner (mkRunner (_trials r)
                       ({[ oid (as_Trial self) ]} ∪ _live_trials r)).

(** [_fetch_metrics(self)]: the metrics and the trial with its cache. *)
Definition _fetch_metrics (self : AdaptDLTrial)
  : M (option SchedHints * AdaptDLTrial) :=
  match runner (as_Trial self) with
  | Some a =>
      m <~ host (GetSchedHints a) (fun w => get_sched_hints w a) ;;
      let self := set_cached_metrics m self in
      ret (_cached_metrics self, self)
  | None =>
      match _cached_metrics self with
      | Some m => ret (Some m, self)
      | None => ret (None, self)
      end
  end.

(** [_allocation_in_use(self)] *)
Definition _allocation_in_use (self : AdaptDLTrial) : M bool :=
  if _trial_in_use self
  then host (TrialInUse (oid (as_Trial self)))
            (fun w => trial_in_use w (oid (as_Trial self)))
  else raise Py.AttributeError.

(** [_clone_from(cls, trial, allocation, restore_path)].  The helpers
    it imports from adaptdl_ray.adaptdl.utils are the codec functions of
    the same names above. *)
Definition _clone_from (t : trial) (allocation : list string)
    (restore_path : option string) : M AdaptDLTrial :=
  let trainable_cls := get_trainable_cls (trial_base t) in
  pgf <~ lift (allocation_to_pgf allocation) ;;
  let num_workers := _pgf_to_num_replicas pgf in
  lift (Py.assert (0 <? num_workers)) ;;~
  p <~ match t with
       | Adapt a => ret (rescale_count a + 1, creation_timestamp a)
       | Plain _ =>
           creation_timestamp <~ host DatetimeNow datetime_now ;;
           ret (0, creation_timestamp)
       end ;;
  let '(rescale_count, creation_timestamp) := p in
  adaptdl_trainable_cls <~
    AdaptDLTrainableCreator (_function trainable_cls) num_workers
                            rescale_count ;;
  AdaptDLTrial_init
    (mkKwargs adaptdl_trainable_cls (Some creation_timestamp)
              (Some rescale_count)
              (config (trial_base t)) (experiment_tag (trial_base t))
              (trial_id (trial_base t)) restore_path "/tmp" (Some pgf)).

(** The checkpoint capture that [create_from] and [pause] share:
    [save_all_states(get_state())] on the actor, a temporary directory
    under the log directory, and the pickle written there. *)
Definition capture_checkpoint (a : Actor) (dir : option string) : M string :=
  host (GetState a) (fun _ => tt) ;;~
  checkpoint_obj <~ host (SaveAllStates a) (fun w => save_all_states w a) ;;
  temp_checkpoint_dir <~
    host (MkTempCheckpointDir dir) (fun w => mk_temp_checkpoint_dir w dir) ;;
  host (CreateFromPickle checkpoint_obj temp_checkpoint_dir)
       (fun w => create_from_pickle w checkpoint_obj temp_checkpoint_dir).

(** [create_from(cls, trial, trial_runner, new_allocation, copy_state)] *)
Definition create_from (t : trial) (new_allocation : list string)
    (copy_state : bool) : M AdaptDLTrial :=
  checkpoint_path <~
    (if copy_state
     then match runner (trial_base t) with
          | Some a =>
              p <~ capture_checkpoint a (logdir (trial_base t)) ;;
              ret (Some p)
          | None => ret (restore_path (trial_base t))
          end
     else ret None) ;;
  new_trial <~ _clone_from t new_allocation checkpoint_path ;;
  let new_trial := set_trial_in_use true new_trial in
  _requeue new_trial t ;;~
  lift (Py.assert (path_eqb (restore_path (as_Trial new_trial))
                            checkpoint_path)) ;;~
  lift (Py.assert (Status_eqb (status (as_Trial new_trial)) PENDING)) ;;~
  ret new_trial.

(** [pause(self, trial_runner)]: the trial after the pause. *)
Definition pause (self : AdaptDLTrial) : M AdaptDLTrial :=
  match runner (as_Trial self) with
  | None => raise Py.AssertionError
  | Some a =>
      checkpoint_path <~ capture_checkpoint a (logdir (as_Trial self)) ;;
      let self := with_Trial (set_restore_path (Some checkpoint_path)) self in
      let self :=
        with_Trial
          (set_placement_group_factory
             (Some (mkPGF [ [("CPU", PyFloat (1 # 1000))] ]))) self in
      host (ReconcilePlacementGroups [self]) (fun _ => tt) ;;~
      ret self
  end.

(** *** AdaptDLJobMixin *)

(** [job_info(self)] *)
Definition job_info (self : AdaptDLTrial) : M (JobInfo * AdaptDLTrial) :=
  p <~ _fetch_metrics self ;;
  let '(metrics, self) := p in
  let speedup_fn :=
    match metrics with
    | Some metrics =>
        let perf_params := perf_params metrics in
        let grad_params := grad_params metrics in
        let goodput_fn := mkGoodputFunction perf_params grad_params 128 in
        SpeedupFunction goodput_fn 1280 (64, 256)
    | None => Lambda (fun n r => r)
    end in
  ret (mkJobInfo job_resources speedup_fn (creation_timestamp self)
                 _JOB_MIN_REPLICAS _JOB_MAX_REPLICAS, self).

(** [allocation(self)] *)
Definition allocation (self : AdaptDLTrial) : M (list string) :=
  match placement_group_factory (as_Trial self) with
  | None => raise Py.AssertionError
  | Some pgf =>
      in_use <~ _allocation_in_use self ;;
      if in_use : bool then lift (pgf_to_allocation pgf) else ret []
  end.

(** *** IncrAllocator (test_trial_sched.py) *)

(** [IncrAllocator.__init__]; [node_infos] is the table that the base
    class [AdaptDLAllocator], which is not among the sources, builds
    from the cluster's nodes. *)
Definition IncrAllocator_init (node_infos : Py.dict NodeInfo)
  : Py.result IncrAllocator :=
  first <- Py.index_at (map snd node_infos) 0 ;;
  cpu <- Py.getitem (resources first) "CPU" ;;
  Ok (mkIncrAllocator node_infos (Py.int (Py.sub cpu (PyInt 1))) 1).

(** [default_allocation(self, num_devices)] *)
Definition default_allocation (self : IncrAllocator) (num_devices : Z)
  : Py.result (list string) :=
  first <- Py.index_at (map fst (_node_infos self)) 0 ;;
  Ok (Py.replicate first num_devices).

(** [allocate(self, jobs)]: the allocation map, the metric and the
    allocator with its counter. *)
Definition allocate (self : IncrAllocator) (jobs : list AdaptDLTrial)
  : Py.result (Py.dict (list string) * Z * IncrAllocator) :=
  job <- Py.index_at jobs 0 ;;
  let self :=
    if _num_replicas job =? _cur_cpus self
    then mkIncrAllocator (_node_infos self) (_avail_cpus self)
                         (Z.min (_cur_cpus self + 1) (_avail_cpus self))
    else self in
  a <- default_allocation self (_cur_cpus self) ;;
  Ok ([(job_id job, a)], 0, self).

(** The job of the scenario once a cycle has granted it [n] units: the
    clone's trainable class is created with that many workers. *)
Definition resized (n : Z) (job : AdaptDLTrial) : AdaptDLTrial :=
  with_Trial
    (fun t =>
       mkTrial (oid t)
               (mkTrainableCls (_function (trainable t)) n
                               (group (trainable t)))
               (config t) (experiment_tag t) (trial_id t) (restore_path t)
               (local_dir t) (logdir t) (placement_group_factory t)
               (status t) (runner t))
    job.

(** Modelled from the spec: the reconciliation loop
    (adaptdl_trial_sched.py) is not among the sources.  A cycle invokes
    the allocator on the job and applies the decision, after which the
    job runs with as many replicas as the allocation has entries.
    [cycles n] are the allocations of [n] successive cycles. *)
Fixpoint cycles (n : nat) (self : IncrAllocator) (job : AdaptDLTrial)
  : Py.result (list (list string)) :=
  match n with
  | O => Ok []
  | S n' =>
      r <- allocate self [job] ;;
      let '(allocs, _, self) := r in
      a <- Py.getitem allocs (job_id job) ;;
      rest <- cycles n' self (resized (Z.of_nat (length a)) job) ;;
      Ok (a :: rest)
  end.

(** *** DecrAllocator and PausingAllocator (test_trial_sched.py) *)

(** [DecrAllocator]: the node table its base class sets up and its two
    counters. *)
Record DecrAllocator : Type := mkDecrAllocator {
  decr_node_infos : Py.dict NodeInfo;
  decr_avail_cpus : Z;
  decr_cur_cpus : Z
}.

(** [DecrAllocator.__init__] *)
Definition DecrAllocator_init (node_infos : Py.dict NodeInfo)
  : Py.result DecrAllocator :=
  first <- Py.index_at (map snd node_infos) 0 ;;
  cpu <- Py.getitem (resources first) "CPU" ;;
  let _avail_cpus := Py.int (Py.sub cpu (PyInt 1)) in
  Ok (mkDecrAllocator node_infos _avail_cpus _avail_cpus).

(** [DecrAllocator.default_allocation(self, num_devices=None)] *)
Definition decr_default_allocation (self : DecrAllocator)
    (num_devices : option Z) : Py.result (list string) :=
  let num_devices :=
    match num_devices with
    | None => decr_avail_cpus self
    | Some n => n
    end in
  first <- Py.index_at (map fst (decr_node_infos self)) 0 ;;
  Ok (Py.replicate first num_devices).

(** [DecrAllocator.allocate(self, jobs)]: what it returns or raises,
    and the allocator with its counter. *)
Definition decr_allocate (self : DecrAllocator) (jobs : list AdaptDLTrial)
  : Py.result (Py.dict (list string) * Z) * DecrAllocator :=
  match Py.index_at jobs 0 with
  | Py.Raise e => (Raise e, self)
  | Py.Ok job =>
      let self :=
        if _num_replicas job =? decr_cur_cpus self
        then mkDecrAllocator (decr_node_infos self) (decr_avail_cpus self)
                             (Z.max (decr_cur_cpus self - 1) 1)
        else self in
      (a <- decr_default_allocation self (Some (decr_cur_cpus self)) ;;
       Ok ([(job_id job, a)], 0),
       self)
  end.

(** [PausingAllocator]: the node table, its two counters and its
    toggle. *)
Record PausingAllocator : Type := mkPausingAllocator {
  pausing_node_infos : Py.dict NodeInfo;
  pausing_avail_cpus : Z;
  pausing_cur_cpus : Z;
  _toggle : bool
}.

(** [PausingAllocator.__init__] *)
Definition PausingAllocator_init (node_infos : Py.dict NodeInfo)
  : Py.result PausingAllocator :=
  first <- Py.index_at (map snd node_infos) 0 ;;
  cpu <- Py.getitem (resources first) "CPU" ;;
  Ok (mkPausingAllocator node_infos (Py.int (Py.sub cpu (PyInt 1))) 1 true).

(** [PausingAllocator.default_allocation(self, num_devices)] *)
Definition pausing_default_allocation (self : PausingAllocator)
    (num_devices : Z) : Py.result (list string) :=
  first <- Py.index_at (map fst (pausing_node_infos self)) 0 ;;
  Ok (Py.replicate first num_devices).

(** [PausingAllocator.allocate(self, jobs)]: what it returns or raises,
    and the allocator with its toggle, which is flipped before the job
    list is read. *)
Definition pausing_allocate (self : PausingAllocator)
    (jobs : list AdaptDLTrial)
  : Py.result (Py.dict (list string) * Z) * PausingAllocator :=
  if _toggle self
  then
    let self :=
      mkPausingAllocator (pausing_node_infos self) (pausing_avail_cpus self)
                         (pausing_cur_cpus self) false in
    (job <- Py.index_at jobs 0 ;;
     a <- pausing_default_allocation self (pausing_cur_cpus self) ;;
     Ok ([(job_id job, a)], 0),
     self)
  else
    let self :=
      mkPausingAllocator (pausing_node_infos self) (pausing_avail_cpus self)
                         (pausing_cur_cpus self) true in
    (job <- Py.index_at jobs 0 ;;
     Ok ([(job_id job, [])], 0),
     self).

(** ** Notions the properties are stated with *)

(** The number of occurrences of a node identifier in an allocation. *)
Definition occurrences (l : list string) (x : string) : Z :=
  Z.of_nat (count_occ string_dec l x).

Definition keys {V} (d : Py.dict V) : list string := map fst d.

Definition values {V} (d : Py.dict V) : list V := map snd d.

(** The count a counter holds for a key, 0 when the key is absent. *)
Definition held (c : Py.dict Z) (x : string) : Z :=
  match Py.get c x with
  | Some n => n
  | None => 0
  end.

Definition control_bundle : bundle := [("CPU", PyFloat (1 # 100))].

(** The entries of a bundle that bind it to a node. *)
Definition node_entries (b : bundle) : bundle :=
  List.filter (fun '(k, _) => Py.startswith k "node") b.

(** The rescale count [_clone_from] computes for a clone of [t]. *)
Definition clone_rescale_count (t : trial) : Z :=
  match t with
  | Adapt a => rescale_count a + 1
  | Plain _ => 0
  end.

(** The trainable class [_clone_from] asks for when it clones [t] onto
    the bundles [pgf]. *)
Definition clone_trainable (t : trial) (pgf : PlacementGroupFactory)
  : TrainableCls :=
  mkTrainableCls (_function (trainable (trial_base t)))
                 (_pgf_to_num_replicas pgf) (clone_rescale_count t).

(** The calls [_clone_from] makes once both its assertions have passed:
    the clock for a source that is a plain [Trial], the trainable class,
    and the clock read by the mixin's constructor.  The host's [Trial]
    constructor is not among them. *)
Definition clone_calls (t : trial) (pgf : PlacementGroupFactory)
  : list Call :=
  match t with
  | Adapt _ => [CreateTrainable (clone_trainable t pgf); DatetimeNow]
  | Plain _ =>
      [DatetimeNow; CreateTrainable (clone_trainable t pgf); DatetimeNow]
  end.

(** The world once each call of a list has been recorded in turn. *)
Definition recorded_all (cs : list Call) (w : World) : World :=
  fold_left (fun w c => recorded c w) cs w.

(** A bundle pinned to [node] with [n] units of the primary resource:
    it holds exactly one node entry, the one of [node]; its quantity of
    the primary resource is [n]; and on GPU it reserves [n] CPUs too. *)
Definition pinned (b : bundle) (node : string) (n : Z) : Prop :=
  node_entries b = [(("node:" ++ node)%string, PyFloat (1 # 100))] /\
  Py.get b (device_key default_device) = Some (PyInt n) /\
  (default_device = GPU -> Py.get b "CPU" = Some (PyInt n)).

(** The calls made into the host so far. *)
Definition calls (w : World) : list Call := map fst (host_log w).

Definition captured_obj (a : Actor) (w : World) : CheckpointObj :=
  save_all_states (recorded (GetState a) w) a.

Definition captured_dir (a : Actor) (dir : option string) (w : World)
  : string :=
  mk_temp_checkpoint_dir
    (recorded (SaveAllStates a) (recorded (GetState a) w)) dir.

Definition captured_world (a : Actor) (dir : option string) (w : World)
  : World :=
  recorded (CreateFromPickle (captured_obj a w) (captured_dir a dir w))
    (recorded (MkTempCheckpointDir dir)
       (recorded (SaveAllStates a) (recorded (GetState a) w))).

Definition captured_path (a : Actor) (dir : option string) (w : World)
  : string :=
  create_from_pickle
    (recorded (MkTempCheckpointDir dir)
       (recorded (SaveAllStates a) (recorded (GetState a) w)))
    (captured_obj a w) (captured_dir a dir w).

(** The placeholder a paused trial holds in place of its bundles. *)
Definition placeholder : PlacementGroupFactory :=
  mkPGF [ [("CPU", PyFloat (1 # 1000))] ].

(** The two collections in which a runner holds its trials: its list
    [_trials] and its set [_live_trials].  A trial object is listed when
    the list holds it, live when the set holds it, and registered with
    the runner when either does. *)
Definition listed (o : nat) (r : TrialRunner) : Prop := In o (_trials r).



(** The runner once [old] has been popped at [i] and [new] added. *)
Definition requeued (new i : nat) (r : TrialRunner) : TrialRunner :=
  mkRunner (Py.pop (_trials r) i ++ [new]) ({[ new ]} ∪ _live_trials r).

(** The first stage of [create_from]: the checkpoint path and the world
    after it. *)
Definition checkpoint_stage (t : trial) (copy_state : bool) (w : World)
  : option string * World :=
  if copy_state
  then match runner (trial_base t) with
       | Some a =>
           (Some (captured_path a (logdir (trial_base t)) w),
            captured_world a (logdir (trial_base t)) w)
       | None => (restore_path (trial_base t), w)
       end
  else (None, w).

(** [w'] is [w] after the calls [cs], all made with the runner of [w]
    unchanged. *)
Definition after_calls (cs : list Call) (w w' : World) : Prop :=
  host_log w' = host_log w ++ map (fun c => (c, trial_runner w)) cs /\
  trial_runner w' = trial_runner w.

(** The calls of the checkpoint stage and of the clone. *)
Definition capture_calls (a : Actor) (dir : option string) (w : World)
  : list Call :=
  [GetState a; SaveAllStates a; MkTempCheckpointDir dir;
   CreateFromPickle (captured_obj a w) (captured_dir a dir w)].

Definition checkpoint_calls (t : trial) (copy_state : bool) (w : World)
  : list Call :=
  if copy_state
  then match runner (trial_base t) with
       | Some a => capture_calls a (logdir (trial_base t)) w
       | None => []
       end
  else [].

(** A string without a colon. *)
Fixpoint colon_free (s : string) : bool :=
  match s with
  | EmptyString => true
  | String c s' => negb (Ascii.eqb c colon) && colon_free s'
  end.

(** The list the second loop of [pgf_to_allocation] builds. *)
Definition expanded (c : list (string * Z)) : list string :=
  concat (map (fun p => Py.replicate (fst p) (snd p)) c).



(** A node reports [n] CPUs: the whole number [n], as an int or as a
    float, of a magnitude that a float holds exactly. *)
Definition cpus (v : Py.number) (n : Z) : Prop :=
  match v with
  | Py.PyInt z => z = n
  | Py.PyFloat q => Qeq q (inject_Z n)
  end /\ 0 <= n <= 2 ^ 53.

(** Successive [allocate] calls of an increment allocator, one for each
    job of a list, whatever their replica counts: the allocations. *)
Fixpoint incr_run (self : IncrAllocator) (jobs : list AdaptDLTrial)
  : Py.result (list (list string)) :=
  match jobs with
  | [] => Ok []
  | job :: jobs' =>
      r <- allocate self [job] ;;
      let '(allocs, _, self) := r in
      a <- Py.getitem allocs (job_id job) ;;
      rest <- incr_run self jobs' ;;
      Ok (a :: rest)
  end.

(** The same for a decrement allocator. *)
Fixpoint decr_run (self : DecrAllocator) (jobs : list AdaptDLTrial)
  : Py.result (list (list string)) :=
  match jobs with
  | [] => Ok []
  | job :: jobs' =>
      let '(r, self) := decr_allocate self [job] in
      p <- r ;;
      a <- Py.getitem (fst p) (job_id job) ;;
      rest <- decr_run self jobs' ;;
      Ok (a :: rest)
  end.

(** The allocations of [n] successive cycles of a decrement allocator
    on one job, which after each cycle runs with as many replicas as
    the allocation has entries (as in [cycles]). *)
Fixpoint decr_cycles (n : nat) (self : DecrAllocator) (job : AdaptDLTrial)
  : Py.result (list (list string)) :=
  match n with
  | O => Ok []
  | S n' =>
      let '(r, self) := decr_allocate self [job] in
      p <- r ;;
      a <- Py.getitem (fst p) (job_id job) ;;
      rest <- decr_cycles n' self (resized (Z.of_nat (length a)) job) ;;
      Ok (a :: rest)
  end.

(** Successive [allocate] calls of a pausing allocator, one for each
    job of a list: the allocations and the allocator at the end. *)
Fixpoint pausing_run (self : PausingAllocator) (jobs : list AdaptDLTrial)
  : Py.result (list (list string)) * PausingAllocator :=
  match jobs with
  | [] => (Ok [], self)
  | job :: jobs' =>
      let '(r, self) := pausing_allocate self [job] in
      match r with
      | Py.Raise e => (Raise e, self)
      | Py.Ok p =>
          match Py.getitem (fst p) (job_id job) with
          | Py.Raise e => (Raise e, self)
          | Py.Ok a =>
              let '(rest, self) := pausing_run self jobs' in
              (rest' <- rest ;; Ok (a :: rest'), self)
          end
      end
  end.

(** The attribute names that [__getstate__] assigns after the hex
    loop. *)
Definition reset_names : list string :=
  ["runner"; "location"; "restoring_from"; "saving_to"; "_state_json";
   "_state_valid"].

(** ** Properties *)

(** *** Dictionaries and counters *)

Lemma sum_from (l : list Z) (a : Z) :
  fold_left Z.add l a = a + Py.sum l.
Proof.
  unfold Py.sum. revert a.
  induction l as [|x l IH]; intros a; simpl.
  - lia.
  - rewrite (IH (a + x)), (IH (0 + x)). lia.
Qed.

Lemma sum_cons (x : Z) (l : list Z) : Py.sum (x :: l) = x + Py.sum l.
Proof. unfold Py.sum at 1. simpl. apply sum_from. Qed.

Lemma get_In {V} (d : Py.dict V) (k : string) (v : V) :
  List.NoDup (keys d) -> In (k, v) d -> Py.get d k = Some v.
Proof.
  induction d as [|[k' v'] d IH]; simpl; intros Hnd Hin; [easy|].
  inversion Hnd as [|? ? Hk Hnd']; subst.
  destruct Hin as [Heq|Hin].
  - inversion Heq; subst. now rewrite String.eqb_refl.
  - destruct (String.eqb_spec k' k) as [->|_].
    + exfalso. apply Hk. change k with (fst (k, v)). now apply in_map.
    + now apply IH.
Qed.

Lemma keys_counter_incr (c : Py.dict Z) (x : string) :
  keys (Py.counter_incr c x) = keys c /\ In x (keys c) \/
  keys (Py.counter_incr c x) = keys c ++ [x] /\ ~ In x (keys c).
Proof.
  induction c as [|[k n] c IH]; simpl.
  - right. split; [reflexivity | tauto].
  - destruct (String.eqb_spec k x) as [->|Hne]; simpl.
    + left. split; [reflexivity | now left].
    + destruct IH as [[-> Hin]|[-> Hnin]].
      * left. split; [reflexivity | now right].
      * right. split; [reflexivity | tauto].
Qed.

Lemma NoDup_counter_incr (c : Py.dict Z) (x : string) :
  List.NoDup (keys c) -> List.NoDup (keys (Py.counter_incr c x)).
Proof.
  intros Hnd. destruct (keys_counter_incr c x) as [[-> _]|[-> Hnin]].
  - exact Hnd.
  - apply List.NoDup_app; repeat split; auto.
    + constructor; [tauto | constructor].
    + intros y Hy [<-|[]]. now apply Hnin.
Qed.

Lemma held_counter_incr (c : Py.dict Z) (x y : string) :
  held (Py.counter_incr c x) y =
  held c y + (if String.eqb x y then 1 else 0).
Proof.
  unfold held. induction c as [|[k n] c IH]; simpl.
  - destruct (String.eqb x y); reflexivity.
  - destruct (String.eqb_spec k x) as [->|Hkx]; simpl.
    + destruct (String.eqb x y); lia.
    + destruct (String.eqb_spec k y) as [->|Hky].
      * destruct (String.eqb_spec x y) as [->|_]; [congruence | lia].
      * exact IH.
Qed.

Lemma positive_counter_incr (c : Py.dict Z) (x : string) :
  Forall (fun n => 0 < n) (values c) ->
  Forall (fun n => 0 < n) (values (Py.counter_incr c x)).
Proof.
  induction c as [|[k n] c IH]; simpl; intros H.
  - repeat constructor.
  - inversion H; subst.
    destruct (String.eqb k x); simpl; constructor; auto; lia.
Qed.

Lemma sum_counter_incr (c : Py.dict Z) (x : string) :
  Py.sum (values (Py.counter_incr c x)) = Py.sum (values c) + 1.
Proof.
  induction c as [|[k n] c IH]; simpl.
  - reflexivity.
  - destruct (String.eqb k x); simpl; rewrite !sum_cons; [lia|].
    fold (values (Py.counter_incr c x)). fold (values c). lia.
Qed.

(** What [Counter] computes, stated on the loop from any counter. *)
Lemma counter_loop (l : list string) (c : Py.dict Z) :
  List.NoDup (keys c) -> Forall (fun n => 0 < n) (values c) ->
  let c' := fold_left Py.counter_incr l c in
  List.NoDup (keys c') /\
  Forall (fun n => 0 < n) (values c') /\
  Py.sum (values c') = Py.sum (values c) + Z.of_nat (length l) /\
  forall x, held c' x = held c x + occurrences l x.
Proof.
  revert c. induction l as [|y l IH]; intros c Hnd Hpos; simpl.
  - repeat split; auto; try lia. intros x. unfold occurrences. simpl. lia.
  - destruct (IH (Py.counter_incr c y)) as (H1 & H2 & H3 & H4).
    + now apply NoDup_counter_incr.
    + now apply positive_counter_incr.
    + repeat split; auto.
      * rewrite H3, sum_counter_incr. lia.
      * intros x. rewrite H4, held_counter_incr.
        unfold occurrences. simpl.
        destruct (string_dec y x) as [->|Hne].
        -- rewrite String.eqb_refl. lia.
        -- destruct (String.eqb_spec y x); [congruence | lia].
Qed.

Lemma Counter_spec (l : list string) :
  List.NoDup (keys (Py.Counter l)) /\
  Py.sum (values (Py.Counter l)) = Z.of_nat (length l) /\
  (forall k n, In (k, n) (Py.Counter l) ->
               n = occurrences l k /\ 0 < n /\ In k l) /\
  (forall k, In k l -> In (k, occurrences l k) (Py.Counter l)).
Proof.
  destruct (counter_loop l []) as (Hnd & Hpos & Hsum & Hheld);
    [constructor | constructor |].
  fold (Py.Counter l) in *.
  split; [exact Hnd|]. split; [rewrite Hsum; reflexivity|]. split.
  - intros k n Hin.
    assert (Hn : 0 < n).
    { rewrite List.Forall_forall in Hpos. apply Hpos.
      change n with (snd (k, n)). now apply in_map. }
    assert (Heq : n = occurrences l k).
    { specialize (Hheld k). unfold held in Hheld.
      rewrite (get_In _ _ _ Hnd Hin) in Hheld. simpl in Hheld. lia. }
    repeat split; auto.
    subst n. unfold occurrences in Hn.
    apply (count_occ_In string_dec). lia.
  - intros k Hk.
    specialize (Hheld k). unfold held in Hheld. simpl in Hheld.
    assert (Hocc : 0 < occurrences l k).
    { unfold occurrences. apply (count_occ_In string_dec) in Hk. lia. }
    destruct (Py.get (Py.Counter l) k) as [n|] eqn:Hget; [|lia].
    replace (occurrences l k) with n by lia.
    clear Hheld Hocc Hnd Hpos Hsum. revert Hget.
    induction (Py.Counter l) as [|[k' n'] c IHc]; simpl; intros Hget.
    + discriminate.
    + destruct (String.eqb_spec k' k) as [->|_].
      * left. congruence.
      * right. now apply IHc.
Qed.

(** *** The encoder *)

Lemma _construct_bundle_eq (node : string) (n : Z) :
  _construct_bundle node n =
  match default_device with
  | CPU => [("CPU", PyInt n); (("node:" ++ node)%string, PyFloat (1 # 100))]
  | GPU => [("GPU", PyInt n); (("node:" ++ node)%string, PyFloat (1 # 100));
            ("CPU", PyInt n)]
  end.
Proof. unfold _construct_bundle. destruct default_device; reflexivity. Qed.

Lemma append_loop {A B C} (f : A -> B -> C) (l : list (A * B))
    (acc : list C) :
  fold_left (fun rs '(a, b) => rs ++ [f a b]) l acc
  = acc ++ map (fun p => f (fst p) (snd p)) l.
Proof.
  revert acc. induction l as [|[a b] l IH]; intros acc; simpl.
  - now rewrite app_nil_r.
  - rewrite IH, <- app_assoc. reflexivity.
Qed.

Lemma allocation_to_pgf_eq (alloc : list string) :
  alloc <> [] ->
  allocation_to_pgf alloc =
  Ok (mkPGF (control_bundle ::
             map (fun p => _construct_bundle (fst p) (snd p))
                 (Py.Counter alloc))).
Proof.
  intros Hne. unfold allocation_to_pgf.
  destruct alloc as [|a alloc]; [congruence|].
  replace (0 <? Z.of_nat (length (a :: alloc))) with true
    by (symmetry; apply Z.ltb_lt; simpl; lia).
  simpl Py.assert. cbv beta iota delta [Py.bind].
  f_equal. f_equal.
  exact (append_loop _construct_bundle (Py.Counter (a :: alloc))
                     [control_bundle]).
Qed.

Lemma allocation_to_pgf_empty :
  allocation_to_pgf [] = Raise Py.AssertionError.
Proof. reflexivity. Qed.

Lemma get_device (node : string) (n : Z) :
  Py.get (_construct_bundle node n) (device_key default_device)
  = Some (PyInt n).
Proof. rewrite _construct_bundle_eq. destruct default_device; reflexivity. Qed.

Lemma node_entries_construct (node : string) (n : Z) :
  node_entries (_construct_bundle node n)
  = [(("node:" ++ node)%string, PyFloat (1 # 100))].
Proof. rewrite _construct_bundle_eq. destruct default_device; reflexivity. Qed.

Lemma num_replicas_encoded (c : Py.dict Z) :
  _pgf_to_num_replicas
    (mkPGF (control_bundle ::
            map (fun p => _construct_bundle (fst p) (snd p)) c))
  = Py.sum (values c).
Proof.
  unfold _pgf_to_num_replicas. simpl tl. f_equal.
  rewrite map_map. apply map_ext. intros [node n]. simpl.
  unfold Py.get_default. now rewrite get_device.
Qed.

Lemma num_replicas_allocation (alloc : list string) :
  alloc <> [] ->
  exists pgf,
    allocation_to_pgf alloc = Ok pgf /\
    _pgf_to_num_replicas pgf = Z.of_nat (length alloc).
Proof.
  intros Hne. eexists. split; [now apply allocation_to_pgf_eq|].
  rewrite num_replicas_encoded. apply Counter_spec.
Qed.

(** *** Cloning *)

Lemma _clone_from_empty (t : trial) (path : option string) (w : World) :
  _clone_from t [] path w = (Raise Py.AssertionError, w).
Proof. reflexivity. Qed.

(** *** The shape of an encoded allocation *)

Lemma pinned_construct (node : string) (n : Z) :
  pinned (_construct_bundle node n) node n.
Proof.
  split; [apply node_entries_construct|].
  split; [apply get_device|].
  intros Hgpu. rewrite _construct_bundle_eq, Hgpu. reflexivity.
Qed.

(** C8. For a non-empty allocation the encoding starts with the
    control-plane bundle, a hundredth of a CPU with no node entry; every
    bundle after it is pinned to one node of the allocation, holds as
    many units of the primary resource as the node has entries in the
    allocation and, when the primary resource is GPU, as many CPUs; and
    every node of the allocation has such a bundle. *)
Theorem allocation_to_pgf_bundles (alloc : list string) :
  alloc <> [] ->
  exists rest,
    allocation_to_pgf alloc
    = Ok (mkPGF ([("CPU", PyFloat (1 # 100))] :: rest)) /\
    node_entries [("CPU", PyFloat (1 # 100))] = [] /\
    (forall b, In b rest ->
       exists node, In node alloc /\ 0 < occurrences alloc node /\
                    pinned b node (occurrences alloc node)) /\
    (forall node, In node alloc ->
       exists b, In b rest /\ pinned b node (occurrences alloc node)).
Proof.
  intros Hne.
  exists (map (fun p => _construct_bundle (fst p) (snd p)) (Py.Counter alloc)).
  destruct (Counter_spec alloc) as (_ & _ & Hin & Hall).
  split; [now apply allocation_to_pgf_eq|]. split; [reflexivity|]. split.
  - intros b Hb. apply in_map_iff in Hb. destruct Hb as ([node n] & <- & Hp).
    destruct (Hin node n Hp) as (-> & Hpos & Hnode). simpl.
    exists node. repeat split; auto; apply pinned_construct.
  - intros node Hnode.
    exists (_construct_bundle node (occurrences alloc node)). split.
    + apply in_map_iff. exists (node, occurrences alloc node). auto.
    + apply pinned_construct.
Qed.

(** C1, at an allocation whose node identifier holds a colon: the
    decoder keeps only what lies between the first two colons of the
    node key, so the node read back is not the node encoded. *)
Theorem pgf_roundtrip_truncates_at_colon :
  (pgf <- allocation_to_pgf ["fe80::1"] ;; pgf_to_allocation pgf)
  = Ok ["fe80"] /\
  count_occ string_dec ["fe80"] "fe80::1" = 0%nat /\
  count_occ string_dec ["fe80::1"] "fe80::1" = 1%nat.
Proof.
  unfold allocation_to_pgf, pgf_to_allocation, collect_bundles,
    bundle_node_keys, bundle_num_devices, _construct_bundle.
  destruct default_device; repeat split; reflexivity.
Qed.

(** *** Running code in the world *)

Lemma mbind_Ok {A B} (m : M A) (k : A -> M B) (w w' : World) (a : A) :
  m w = (Ok a, w') -> mbind m k w = k a w'.
Proof. intros H. unfold mbind. now rewrite H. Qed.

Lemma mbind_Raise {A B} (m : M A) (k : A -> M B) (w w' : World)
    (e : Py.exn) :
  m w = (Raise e, w') -> mbind m k w = (Raise e, w').
Proof. intros H. unfold mbind. now rewrite H. Qed.

Lemma calls_recorded (c : Call) (w : World) :
  calls (recorded c w) = calls w ++ [c].
Proof. unfold calls, recorded. simpl. now rewrite map_app. Qed.

Lemma path_eqb_refl (p : option string) : path_eqb p p = true.
Proof. destruct p; simpl; [apply String.eqb_refl | reflexivity]. Qed.

(** *** Capturing a checkpoint *)

Lemma capture_checkpoint_eq (a : Actor) (dir : option string) (w : World) :
  capture_checkpoint a dir w
  = (Ok (captured_path a dir w), captured_world a dir w).
Proof. reflexivity. Qed.

Lemma calls_captured (a : Actor) (dir : option string) (w : World) :
  calls (captured_world a dir w) =
  calls w ++ [GetState a; SaveAllStates a; MkTempCheckpointDir dir;
              CreateFromPickle (captured_obj a w) (captured_dir a dir w)].
Proof.
  unfold captured_world. rewrite !calls_recorded, <- !app_assoc. reflexivity.
Qed.

(** *** Requeueing *)

Lemma index_pop (l : list nat) (x : nat) :
  In x l ->
  exists i,
    Py.index l x = Ok i /\
    (forall y, y <> x -> (In y (Py.pop l i) <-> In y l)) /\
    (List.NoDup l -> ~ In x (Py.pop l i)).
Proof.
  induction l as [|y l IH]; simpl; intros Hin; [easy|].
  destruct (Nat.eqb_spec y x) as [->|Hne].
  - exists O. split; [reflexivity|]. simpl. split.
    + intros z Hz. split; [tauto|]. intros [Heq|H]; [congruence | exact H].
    + intros Hnd. now inversion Hnd.
  - destruct Hin as [Heq|Hin]; [congruence|].
    destruct (IH Hin) as (i & Hi & Hother & Hgone).
    exists (S i). rewrite Hi. split; [reflexivity|]. simpl. split.
    + intros z Hz. specialize (Hother z Hz). tauto.
    + intros Hnd. inversion Hnd; subst. intros [Heq|H]; [congruence|].
      now apply Hgone.
Qed.

Lemma index_absent (l : list nat) (x : nat) :
  ~ In x l -> Py.index l x = Raise Py.ValueError.
Proof.
  induction l as [|y l IH]; simpl; intros Hin; [reflexivity|].
  destruct (Nat.eqb_spec y x) as [->|Hne]; [tauto|].
  rewrite IH; [reflexivity | tauto].
Qed.

Lemma _requeue_eq (self : AdaptDLTrial) (old : trial) (w : World) (i : nat) :
  Py.index (_trials (trial_runner w)) (oid (trial_base old)) = Ok i ->
  _requeue self old w =
  (Ok tt,
   mkWorld (next_oid w)
           (requeued (oid (as_Trial self)) i (trial_runner w))
           (host_log (recorded (StopTrial (oid (trial_base old))) w))).
Proof.
  intros Hi. unfold _requeue.
  rewrite (mbind_Ok _ _ w (recorded (StopTrial (oid (trial_base old))) w) tt)
    by reflexivity.
  unfold mbind at 1. unfold get_runner at 1.
  unfold mbind at 1. unfold lift at 1. simpl trial_runner. rewrite Hi.
  reflexivity.
Qed.

(** *** Creating a trial from another *)

Lemma checkpoint_stage_frame (t : trial) (copy_state : bool) (w : World) :
  next_oid (snd (checkpoint_stage t copy_state w)) = next_oid w /\
  trial_runner (snd (checkpoint_stage t copy_state w)) = trial_runner w.
Proof.
  unfold checkpoint_stage.
  destruct copy_state; [destruct (runner (trial_base t))|]; split; reflexivity.
Qed.

(** *** What the host sees *)

Lemma after_calls_nil (w : World) : after_calls [] w w.
Proof. split; [simpl; now rewrite app_nil_r | reflexivity]. Qed.

Lemma after_calls_recorded (cs : list Call) (c : Call) (w w' : World) :
  after_calls cs w w' -> after_calls (cs ++ [c]) w (recorded c w').
Proof.
  intros [Hlog Hrun]. split; [|exact Hrun].
  simpl. rewrite Hlog, Hrun, map_app, <- app_assoc. reflexivity.
Qed.

Lemma after_calls_calls (cs : list Call) (w w' : World) :
  after_calls cs w w' -> calls w' = calls w ++ cs.
Proof.
  intros [Hlog _]. unfold calls. rewrite Hlog, map_app, map_map. simpl.
  now rewrite map_id.
Qed.

Lemma after_calls_captured (a : Actor) (dir : option string) (w : World) :
  after_calls (capture_calls a dir w) w (captured_world a dir w).
Proof.
  unfold captured_world, capture_calls.
  apply (after_calls_recorded
           [GetState a; SaveAllStates a; MkTempCheckpointDir dir]).
  apply (after_calls_recorded [GetState a; SaveAllStates a]).
  apply (after_calls_recorded [GetState a]).
  apply (after_calls_recorded []), after_calls_nil.
Qed.

Lemma after_calls_checkpoint (t : trial) (copy_state : bool) (w : World) :
  after_calls (checkpoint_calls t copy_state w) w
              (snd (checkpoint_stage t copy_state w)).
Proof.
  unfold checkpoint_calls, checkpoint_stage.
  destruct copy_state; [destruct (runner (trial_base t))|]; simpl;
    auto using after_calls_nil, after_calls_captured.
Qed.

(** [_requeue] adds the new trial to the set of live trials and removes
    nothing from it: a live old trial stays in the set. *)
Remark requeue_live_trials (new i : nat) (r : TrialRunner) :
  _live_trials (requeued new i r) = {[ new ]} ∪ _live_trials r.
Proof. reflexivity. Qed.

(** C7. [job_info] builds its speedup function from what
    [_fetch_metrics] returns: with no metrics it is a function that
    returns its second argument, the replica count, unchanged; with
    metrics it is the [SpeedupFunction] over the goodput function of
    their performance and gradient parameters. *)
Theorem job_info_speedup (self : AdaptDLTrial) (w : World) :
  exists metrics self' w' info,
    _fetch_metrics self w = (Ok (metrics, self'), w') /\
    job_info self w = (Ok (info, self'), w') /\
    match metrics with
    | None =>
        exists f, speedup_fn info = Lambda f /\ forall n r, f n r = r
    | Some m =>
        speedup_fn info =
        SpeedupFunction
          (mkGoodputFunction (perf_params m) (grad_params m) 128)
          1280 (64, 256)
    end.
Proof.
  assert (Hfetch : exists metrics self' w',
             _fetch_metrics self w = (Ok (metrics, self'), w')).
  { unfold _fetch_metrics.
    destruct (runner (as_Trial self)); [|destruct (_cached_metrics self)];
      do 3 eexists; reflexivity. }
  destruct Hfetch as (metrics & self' & w' & Hfetch).
  exists metrics, self', w'. eexists.
  split; [exact Hfetch|]. split.
  - unfold job_info. rewrite (mbind_Ok _ _ _ _ _ Hfetch). reflexivity.
  - destruct metrics as [m|]; simpl; [reflexivity|].
    eexists. split; [reflexivity|]. reflexivity.
Qed.

(** *** The constructor chain *)

Lemma Trial_init_TypeError (kw : Kwargs) (ts : Z) (w : World) :
  kw_creation_timestamp kw = Some ts ->
  Trial_init kw w = (Raise Py.TypeError, w).
Proof. intros H. unfold Trial_init. rewrite H. reflexivity. Qed.

Lemma AdaptDLTrial_init_TypeError (kw : Kwargs) (ts : Z) (w : World) :
  kw_creation_timestamp kw = Some ts ->
  AdaptDLTrial_init kw w = (Raise Py.TypeError, recorded DatetimeNow w).
Proof.
  intros H. unfold AdaptDLTrial_init, AdaptDLJobMixin_init.
  unfold mbind at 1. unfold mbind at 1. unfold mbind at 1. unfold host at 1.
  rewrite (Trial_init_TypeError kw ts) by exact H. reflexivity.
Qed.

Lemma AdaptDLTrial_init_Ok (kw : Kwargs) (w : World) :
  kw_creation_timestamp kw = None ->
  AdaptDLTrial_init kw w =
  (Ok (mkAdaptDLTrial
         (mkTrial (next_oid w) (kw_trainable kw) (kw_config kw)
                  (kw_experiment_tag kw) (kw_trial_id kw)
                  (kw_restore_path kw) (kw_local_dir kw) None
                  (kw_placement_group_factory kw) PENDING None)
         (match kw_rescale_count kw with Some n => n | None => 0 end)
         None (kw_trial_id kw) (datetime_now w) false),
   recorded (NewTrial (next_oid w))
            (mkWorld (S (next_oid w)) (trial_runner w)
                     (host_log (recorded DatetimeNow w)))).
Proof.
  intros H. unfold AdaptDLTrial_init, AdaptDLJobMixin_init.
  unfold mbind at 1. unfold mbind at 1. unfold mbind at 1. unfold host at 1.
  unfold Trial_init. rewrite H. reflexivity.
Qed.

Lemma _clone_from_eq (t : trial) (alloc : list string)
    (path : option string) (w : World) :
  alloc <> [] ->
  exists pgf,
    allocation_to_pgf alloc = Ok pgf /\
    _pgf_to_num_replicas pgf = Z.of_nat (length alloc) /\
    _clone_from t alloc path w =
    (Raise Py.TypeError, recorded_all (clone_calls t pgf) w).
Proof.
  intros Hne. destruct (num_replicas_allocation alloc Hne) as (pgf & H1 & H2).
  exists pgf. split; [exact H1|]. split; [exact H2|].
  assert (Hpos : (0 <? _pgf_to_num_replicas pgf) = true).
  { apply Z.ltb_lt. rewrite H2. destruct alloc; [congruence | simpl; lia]. }
  unfold _clone_from. unfold mbind at 1. unfold lift at 1. rewrite H1.
  unfold mbind at 1. unfold lift at 1. rewrite Hpos. simpl Py.assert.
  destruct t as [t|a].
  - unfold mbind at 1. unfold mbind at 1. unfold host at 1. unfold ret at 1.
    unfold mbind at 1. unfold AdaptDLTrainableCreator at 1. unfold host at 1.
    erewrite AdaptDLTrial_init_TypeError by reflexivity. reflexivity.
  - unfold mbind at 1. unfold ret at 1.
    unfold mbind at 1. unfold AdaptDLTrainableCreator at 1. unfold host at 1.
    erewrite AdaptDLTrial_init_TypeError by reflexivity. reflexivity.
Qed.

Lemma after_calls_recorded_all (cs' cs : list Call) (w w' : World) :
  after_calls cs w w' -> after_calls (cs ++ cs') w (recorded_all cs' w').
Proof.
  revert cs w'. induction cs' as [|c cs' IH]; intros cs w' H.
  - rewrite app_nil_r. exact H.
  - replace (cs ++ c :: cs') with ((cs ++ [c]) ++ cs')
      by (rewrite <- app_assoc; reflexivity).
    simpl. apply IH, after_calls_recorded, H.
Qed.

Lemma next_oid_recorded_all (cs : list Call) (w : World) :
  next_oid (recorded_all cs w) = next_oid w.
Proof.
  revert w. induction cs as [|c cs IH]; intros w; [reflexivity|].
  unfold recorded_all in *. simpl. now rewrite IH.
Qed.

Lemma create_from_eq (t : trial) (alloc : list string) (copy_state : bool)
    (w : World) :
  alloc <> [] ->
  exists pgf,
    allocation_to_pgf alloc = Ok pgf /\
    _pgf_to_num_replicas pgf = Z.of_nat (length alloc) /\
    create_from t alloc copy_state w =
    (Raise Py.TypeError,
     recorded_all (clone_calls t pgf)
                  (snd (checkpoint_stage t copy_state w))).
Proof.
  intros Hne.
  destruct (_clone_from_eq t alloc (fst (checkpoint_stage t copy_state w))
              (snd (checkpoint_stage t copy_state w)) Hne)
    as (pgf & Hpgf & Hlen & Hclone).
  exists pgf. split; [exact Hpgf|]. split; [exact Hlen|].
  unfold create_from.
  rewrite (mbind_Ok _ _ w (snd (checkpoint_stage t copy_state w))
             (fst (checkpoint_stage t copy_state w))).
  2:{ unfold checkpoint_stage.
      destruct copy_state; [destruct (runner (trial_base t))|]; reflexivity. }
  apply mbind_Raise, Hclone.
Qed.

(** C10. For a non-empty allocation the replica count read back from
    its encoding is the length of the allocation, and that count is the
    number of workers of the trainable class that a clone made for the
    allocation asks for.  The class is the only one asked for; the
    constructor that follows raises TypeError on the
    [creation_timestamp] keyword, which the count does not depend on. *)
Theorem num_replicas_is_length (alloc : list string) (t : trial)
    (path : option string) (w : World) :
  alloc <> [] ->
  exists pgf,
    allocation_to_pgf alloc = Ok pgf /\
    _pgf_to_num_replicas pgf = Z.of_nat (length alloc) /\
    exists cls w',
      _clone_from t alloc path w = (Raise Py.TypeError, w') /\
      calls w' =
      calls w ++ match t with
                 | Plain _ => [DatetimeNow]
                 | Adapt _ => []
                 end ++ [CreateTrainable cls; DatetimeNow] /\
      _num_workers cls = Z.of_nat (length alloc).
Proof.
  intros Hne.
  destruct (_clone_from_eq t alloc path w Hne) as (pgf & Hpgf & Hlen & Hclone).
  exists pgf. split; [exact Hpgf|]. split; [exact Hlen|].
  exists (clone_trainable t pgf), (recorded_all (clone_calls t pgf) w).
  split; [exact Hclone|]. split; [|exact Hlen].
  rewrite (after_calls_calls _ _ _
             (after_calls_recorded_all (clone_calls t pgf) [] w w
                (after_calls_nil w))).
  destruct t; reflexivity.
Qed.

(** C5. Pausing a running trial captures a checkpoint from its actor:
    the state that [save_all_states] answers is written by
    [create_from_pickle] under the temporary directory that
    [mk_temp_checkpoint_dir] answers for the log directory.  The path
    that [create_from_pickle] answers is kept as the trial's restore
    path, the trial's bundles are replaced by a single bundle of a
    thousandth of a CPU with no node entry, and then the host is asked
    to reconcile the placement groups of the trial; nothing else of the
    trial changes, so the restore path is the one it holds after the
    pause. *)
Theorem pause_retains_checkpoint (self : AdaptDLTrial) (a : Actor)
    (w : World) :
  runner (as_Trial self) = Some a ->
  exists obj dir path self' w',
    obj = save_all_states (recorded (GetState a) w) a /\
    dir = mk_temp_checkpoint_dir
            (recorded (SaveAllStates a) (recorded (GetState a) w))
            (logdir (as_Trial self)) /\
    path = create_from_pickle
             (recorded (MkTempCheckpointDir (logdir (as_Trial self)))
                (recorded (SaveAllStates a) (recorded (GetState a) w)))
             obj dir /\
    pause self w = (Ok self', w') /\
    self' = with_Trial (set_placement_group_factory (Some placeholder))
              (with_Trial (set_restore_path (Some path)) self) /\
    restore_path (as_Trial self') = Some path /\
    placement_group_factory (as_Trial self')
    = Some (mkPGF [ [("CPU", PyFloat (1 # 1000))] ]) /\
    node_entries [("CPU", PyFloat (1 # 1000))] = [] /\
    trial_runner w' = trial_runner w /\
    calls w' =
    calls w ++ [GetState a; SaveAllStates a;
                MkTempCheckpointDir (logdir (as_Trial self));
                CreateFromPickle obj dir;
                ReconcilePlacementGroups [self']].
Proof.
  intros Hr.
  exists (captured_obj a w), (captured_dir a (logdir (as_Trial self)) w),
         (captured_path a (logdir (as_Trial self)) w).
  pose (path := captured_path a (logdir (as_Trial self)) w).
  pose (self' := with_Trial (set_placement_group_factory (Some placeholder))
                   (with_Trial (set_restore_path (Some path)) self)).
  exists self',
         (recorded (ReconcilePlacementGroups [self'])
                   (captured_world a (logdir (as_Trial self)) w)).
  split; [reflexivity|]. split; [reflexivity|]. split; [reflexivity|].
  split; [unfold pause; rewrite Hr; reflexivity|].
  split; [reflexivity|]. split; [reflexivity|]. split; [reflexivity|].
  split; [reflexivity|]. split; [reflexivity|].
  rewrite calls_recorded, calls_captured, <- app_assoc. reflexivity.
Qed.

(** *** Requeueing, as the runner's two collections see it *)

Lemma _requeue_unlisted (self : AdaptDLTrial) (old : trial) (w : World) :
  ~ listed (oid (trial_base old)) (trial_runner w) ->
  _requeue self old w =
  (Raise Py.ValueError, recorded (StopTrial (oid (trial_base old))) w).
Proof.
  intros Hnin. apply index_absent in Hnin. unfold _requeue.
  rewrite (mbind_Ok _ _ w (recorded (StopTrial (oid (trial_base old))) w) tt)
    by reflexivity.
  unfold mbind at 1. unfold get_runner at 1.
  unfold mbind at 1. unfold lift at 1. simpl trial_runner. rewrite Hnin.
  reflexivity.
Qed.


(** Between the two statements of [_requeue] that edit the list, the
    runner lists neither trial; no call into the host is made there. *)
Remark requeue_between (old new i : nat) (r : TrialRunner) :
  List.NoDup (_trials r) -> ~ listed new r ->
  Py.index (_trials r) old = Ok i ->
  ~ listed old (mkRunner (Py.pop (_trials r) i) (_live_trials r)) /\
  ~ listed new (mkRunner (Py.pop (_trials r) i) (_live_trials r)).
Proof.
  intros Hnd Hnew Hi. unfold listed in Hnew |- *. simpl.
  destruct (Nat.eq_dec new old) as [->|Hne].
  - assert (Hin : In old (_trials r) \/ ~ In old (_trials r)) by tauto.
    destruct Hin as [Hin|Hin]; [tauto|].
    rewrite (index_absent _ _ Hin) in Hi. discriminate.
  - assert (Hin : In old (_trials r)).
    { destruct (in_dec Nat.eq_dec old (_trials r)) as [H|H]; [exact H|].
      rewrite (index_absent _ _ H) in Hi. discriminate. }
    destruct (index_pop _ _ Hin) as (i' & Hi' & Hother & Hgone).
    assert (i' = i) by congruence. subst i'. split; [now apply Hgone|].
    intros H. apply Hnew. now apply (Hother new Hne).
Qed.


(** *** The increment policy *)

Lemma length_replicate {A} (x : A) (n : Z) :
  0 <= n -> Z.of_nat (length (Py.replicate x n)) = n.
Proof. intros H. unfold Py.replicate. rewrite repeat_length. lia. Qed.

Lemma allocate_eq (self : IncrAllocator) (job : AdaptDLTrial)
    (node : string) (info : NodeInfo) (nodes : Py.dict NodeInfo) :
  _node_infos self = (node, info) :: nodes ->
  _num_replicas job = _cur_cpus self ->
  let cur := Z.min (_cur_cpus self + 1) (_avail_cpus self) in
  allocate self [job] =
  Ok ([(job_id job, Py.replicate node cur)], 0,
      mkIncrAllocator (_node_infos self) (_avail_cpus self) cur).
Proof.
  intros Hnodes Hn. cbv zeta. unfold allocate, Py.index_at.
  cbn [nth_error]. unfold Py.bind at 1.
  rewrite Hn, Z.eqb_refl. unfold default_allocation. cbn [_node_infos].
  rewrite Hnodes. reflexivity.
Qed.

(** The allocations of successive cycles from an allocator whose
    counter equals the job's replica count. *)
Lemma cycles_eq (k : nat) (self : IncrAllocator) (job : AdaptDLTrial)
    (node : string) (info : NodeInfo) (nodes : Py.dict NodeInfo) :
  _node_infos self = (node, info) :: nodes ->
  0 <= _avail_cpus self -> 0 <= _cur_cpus self ->
  _num_replicas job = _cur_cpus self ->
  cycles k self job =
  Ok (map (fun i => Py.replicate node
                      (Z.min (_cur_cpus self + 1 + Z.of_nat i)
                             (_avail_cpus self)))
          (seq 0 k)).
Proof.
  revert self job. induction k as [|k IH]; intros self job Hnodes Ha Hc Hn.
  - reflexivity.
  - cbn [cycles]. rewrite (allocate_eq self job node info nodes Hnodes Hn).
    cbv zeta. unfold Py.bind at 1. unfold Py.getitem. cbn [Py.get].
    rewrite String.eqb_refl. unfold Py.bind at 1.
    set (cur := Z.min (_cur_cpus self + 1) (_avail_cpus self)).
    assert (Hcur : 0 <= cur) by (unfold cur; lia).
    rewrite (IH (mkIncrAllocator (_node_infos self) (_avail_cpus self) cur)
                (resized (Z.of_nat (length (Py.replicate node cur))) job));
      try assumption.
    + unfold Py.bind. cbn [seq map _cur_cpus _avail_cpus]. f_equal. f_equal.
      * f_equal. unfold cur. lia.
      * rewrite <- seq_shift, map_map. apply map_ext. intros i.
        f_equal. unfold cur. lia.
    + cbn [_num_replicas _cur_cpus]. now apply length_replicate.
Qed.

(** C3, amended. On the test's cluster of NUM_CPUS_CLUSTER = 5 CPUs the
    increment policy keeps one CPU back, so 4 units are available; from
    one job at 1 replica, the cycle of index [i] (from 0) grants
    min (2 + i, 4) entries of the node: the job grows by one unit per
    cycle through 1, 2, 3, 4 and stays at 4. *)
Theorem incr_allocation_sizes (node : string) (others : Py.dict Py.number)
    (job : AdaptDLTrial) (k : nat) :
  _num_replicas job = 1 ->
  exists self,
    IncrAllocator_init (test_cluster node others) = Ok self /\
    _avail_cpus self = NUM_CPUS_CLUSTER - 1 /\
    cycles k self job =
    Ok (map (fun i => Py.replicate node (Z.min (2 + Z.of_nat i) 4))
            (seq 0 k)) /\
    forall i, (i < k)%nat ->
      Z.of_nat (length (Py.replicate node (Z.min (2 + Z.of_nat i) 4)))
      = Z.min (2 + Z.of_nat i) 4.
Proof.
  intros Hn. exists (mkIncrAllocator (test_cluster node others) 4 1).
  split; [reflexivity|]. split; [reflexivity|]. split.
  - erewrite cycles_eq; [| reflexivity | | | exact Hn].
    + apply f_equal, map_ext. intros i. reflexivity.
    + cbn. lia.
    + cbn. lia.
  - intros i _. apply length_replicate. lia.
Qed.

(** *** The round trip through the codec *)

Lemma split_colon_free (s : string) :
  colon_free s = true -> Py.split colon s = [s].
Proof.
  induction s as [|c s IH]; simpl; intros H; [reflexivity|].
  apply andb_prop in H. destruct H as [Hc Hs].
  apply negb_true_iff in Hc. rewrite Hc, (IH Hs). reflexivity.
Qed.

Lemma bundle_node_keys_construct (node : string) (n : Z) :
  colon_free node = true ->
  bundle_node_keys (_construct_bundle node n) = Ok [node].
Proof.
  intros H. unfold bundle_node_keys.
  change (List.filter (fun '(k, _) => Py.startswith k "node")
                      (_construct_bundle node n))
    with (node_entries (_construct_bundle node n)).
  rewrite node_entries_construct. simpl.
  change ("" ++ node)%string with node.
  rewrite (split_colon_free node H). reflexivity.
Qed.

Lemma bundle_num_devices_construct (node : string) (n : Z) :
  bundle_num_devices (_construct_bundle node n) = [n].
Proof.
  unfold bundle_num_devices. rewrite _construct_bundle_eq.
  destruct default_device; reflexivity.
Qed.

Lemma collect_bundles_encoded (c : Py.dict Z) (node_keys : list string)
    (num_devices : list Z) :
  Forall (fun k => colon_free k = true) (keys c) ->
  collect_bundles (map (fun p => _construct_bundle (fst p) (snd p)) c)
                  node_keys num_devices
  = Ok (node_keys ++ keys c, num_devices ++ values c).
Proof.
  revert node_keys num_devices.
  induction c as [|[node n] c IH]; intros nk nd Hfree; simpl.
  - now rewrite !app_nil_r.
  - inversion Hfree; subst.
    rewrite bundle_node_keys_construct by assumption.
    unfold Py.bind. rewrite bundle_num_devices_construct, IH by assumption.
    now rewrite <- !app_assoc.
Qed.

Lemma expand_loop (l : list (string * Z)) (acc : list string) :
  fold_left (fun allocs '(node, count) => allocs ++ Py.replicate node count)
            l acc
  = acc ++ expanded l.
Proof.
  revert acc. induction l as [|[node n] l IH]; intros acc; simpl.
  - now rewrite app_nil_r.
  - rewrite IH, <- app_assoc. reflexivity.
Qed.

Lemma combine_keys_values {V} (c : Py.dict V) :
  combine (keys c) (values c) = c.
Proof.
  induction c as [|[k v] c IH]; simpl; [reflexivity | now rewrite IH].
Qed.

Lemma held_absent (c : Py.dict Z) (x : string) :
  ~ In x (keys c) -> held c x = 0.
Proof.
  unfold held. induction c as [|[k n] c IH]; simpl; intros H; [reflexivity|].
  destruct (String.eqb_spec k x) as [->|_]; [tauto|].
  apply IH. tauto.
Qed.

Lemma count_expanded (c : Py.dict Z) (x : string) :
  List.NoDup (keys c) -> Forall (fun n => 0 < n) (values c) ->
  Z.of_nat (count_occ string_dec (expanded c) x) = held c x.
Proof.
  induction c as [|[k n] c IH]; intros Hnd Hpos; [reflexivity|].
  inversion Hnd as [|? ? Hk Hnd']; subst. inversion Hpos; subst.
  unfold expanded. simpl. fold (expanded c).
  rewrite count_occ_app, Nat2Z.inj_add, (IH Hnd') by assumption.
  unfold held at 2. simpl. unfold Py.replicate.
  destruct (String.eqb_spec k x) as [->|Hne].
  - rewrite count_occ_repeat_eq by reflexivity.
    rewrite (held_absent c x Hk). lia.
  - rewrite count_occ_repeat_neq by congruence. reflexivity.
Qed.

(** For an allocation whose node identifiers hold no colon, decoding
    the encoding gives back every node as many times as the allocation
    holds it. *)
Lemma pgf_roundtrip_colon_free (alloc : list string) :
  alloc <> [] ->
  Forall (fun node => colon_free node = true) alloc ->
  exists alloc',
    (pgf <- allocation_to_pgf alloc ;; pgf_to_allocation pgf) = Ok alloc' /\
    forall node,
      count_occ string_dec alloc' node = count_occ string_dec alloc node.
Proof.
  intros Hne Hfree.
  destruct (Counter_spec alloc) as (Hnd & _ & Hin & _).
  destruct (counter_loop alloc []) as (_ & Hpos & _ & Hheld);
    [constructor | constructor |].
  fold (Py.Counter alloc) in Hpos, Hheld.
  exists (expanded (Py.Counter alloc)). split.
  - rewrite (allocation_to_pgf_eq alloc Hne). unfold Py.bind at 1.
    unfold pgf_to_allocation. simpl tl.
    rewrite collect_bundles_encoded.
    + unfold Py.bind. simpl app. rewrite combine_keys_values.
      now rewrite expand_loop.
    + apply List.Forall_forall. intros k Hk. apply in_map_iff in Hk.
      destruct Hk as ([k' n] & <- & Hp). simpl.
      rewrite List.Forall_forall in Hfree. apply Hfree.
      now apply (Hin k' n).
  - intros node. apply Nat2Z.inj.
    rewrite (count_expanded _ node Hnd Hpos), Hheld. reflexivity.
Qed.

(** *** More on the codec *)






Lemma counter_incr_fresh (c : Py.dict Z) (k : string) :
  ~ In k (keys c) -> Py.counter_incr c k = c ++ [(k, 1)].
Proof.
  induction c as [|[k' n] c IH]; simpl; intros H; [reflexivity|].
  destruct (String.eqb_spec k' k) as [->|_]; [tauto|].
  rewrite IH; tauto.
Qed.

Lemma counter_incr_last (c : Py.dict Z) (k : string) (n : Z) :
  ~ In k (keys c) ->
  Py.counter_incr (c ++ [(k, n)]) k = c ++ [(k, n + 1)].
Proof.
  induction c as [|[k' n'] c IH]; simpl; intros H.
  - now rewrite String.eqb_refl.
  - destruct (String.eqb_spec k' k) as [->|_]; [tauto|].
    rewrite IH; tauto.
Qed.

Lemma counter_repeat_last (c : Py.dict Z) (k : string) (j : Z) (m : nat) :
  ~ In k (keys c) ->
  fold_left Py.counter_incr (repeat k m) (c ++ [(k, j)])
  = c ++ [(k, j + Z.of_nat m)].
Proof.
  intros H. revert j. induction m as [|m IH]; intros j; simpl repeat.
  - cbn [fold_left]. do 3 f_equal. lia.
  - cbn [fold_left]. rewrite (counter_incr_last c k j H), IH.
    do 3 f_equal. lia.
Qed.

Lemma counter_repeat (c : Py.dict Z) (k : string) (m : nat) :
  ~ In k (keys c) ->
  fold_left Py.counter_incr (repeat k (S m)) c
  = c ++ [(k, Z.of_nat (S m))].
Proof.
  intros H. simpl repeat. cbn [fold_left].
  rewrite (counter_incr_fresh c k H), (counter_repeat_last c k 1 m H).
  do 3 f_equal. lia.
Qed.

Lemma counter_expanded (c2 c1 : Py.dict Z) :
  List.NoDup (keys (c1 ++ c2)) -> Forall (fun n => 0 < n) (values c2) ->
  fold_left Py.counter_incr (expanded c2) c1 = c1 ++ c2.
Proof.
  revert c1. induction c2 as [|[k n] c2 IH]; intros c1 Hnd Hpos.
  - simpl. now rewrite app_nil_r.
  - inversion Hpos as [|? ? Hn Hpos']; subst.
    unfold expanded. simpl. fold (expanded c2). rewrite fold_left_app.
    unfold Py.replicate.
    destruct (Z.to_nat n) as [|m] eqn:Hm; [lia|].
    assert (Hk : ~ In k (keys c1)).
    { pose proof Hnd as Hnd'.
      unfold keys in Hnd'. rewrite map_app in Hnd'. simpl in Hnd'.
      apply List.NoDup_remove_2 in Hnd'. intros Hin. apply Hnd'.
      apply in_or_app. now left. }
    rewrite (counter_repeat c1 k m Hk).
    replace (Z.of_nat (S m)) with n by lia.
    rewrite IH.
    + now rewrite <- List.app_assoc.
    + now rewrite <- List.app_assoc.
    + exact Hpos'.
Qed.

Lemma Counter_expanded (alloc : list string) :
  Py.Counter (expanded (Py.Counter alloc)) = Py.Counter alloc.
Proof.
  destruct (counter_loop alloc []) as (Hnd & Hpos & _ & _);
    [constructor | constructor |].
  fold (Py.Counter alloc) in Hnd, Hpos.
  unfold Py.Counter at 1. now rewrite counter_expanded.
Qed.

Lemma Permutation_expanded (alloc : list string) :
  Permutation (expanded (Py.Counter alloc)) alloc.
Proof.
  destruct (Counter_spec alloc) as (Hnd & _ & _ & _).
  destruct (counter_loop alloc []) as (_ & Hpos & _ & Hheld);
    [constructor | constructor |].
  fold (Py.Counter alloc) in Hpos, Hheld.
  apply (Permutation_count_occ string_dec). intros x. apply Nat2Z.inj.
  rewrite (count_expanded _ x Hnd Hpos), Hheld. reflexivity.
Qed.

Lemma pgf_roundtrip_eq (alloc : list string) :
  alloc <> [] ->
  Forall (fun node => colon_free node = true) alloc ->
  (pgf <- allocation_to_pgf alloc ;; pgf_to_allocation pgf)
  = Ok (expanded (Py.Counter alloc)).
Proof.
  intros Hne Hfree.
  destruct (Counter_spec alloc) as (_ & _ & Hin & _).
  rewrite (allocation_to_pgf_eq alloc Hne). unfold Py.bind at 1.
  unfold pgf_to_allocation. simpl tl. rewrite collect_bundles_encoded.
  - unfold Py.bind. simpl app. rewrite combine_keys_values.
    now rewrite expand_loop.
  - apply List.Forall_forall. intros k Hk. apply in_map_iff in Hk.
    destruct Hk as ([k' n] & <- & Hp). simpl.
    rewrite List.Forall_forall in Hfree. apply Hfree. now apply (Hin k' n).
Qed.

(** X1. For a non-empty allocation whose node identifiers hold no
    colon, decoding the encoding returns a permutation of the
    allocation: every node repeated as often as the allocation holds
    it, the nodes in the order of their first occurrence. *)
Theorem pgf_roundtrip_permutation (alloc : list string) :
  alloc <> [] ->
  Forall (fun node => colon_free node = true) alloc ->
  exists alloc',
    (pgf <- allocation_to_pgf alloc ;; pgf_to_allocation pgf) = Ok alloc' /\
    Permutation alloc' alloc /\
    length alloc' = length alloc /\
    alloc' = concat (map (fun p => repeat (fst p) (Z.to_nat (snd p)))
                         (Py.Counter alloc)).
Proof.
  intros Hne Hfree. exists (expanded (Py.Counter alloc)).
  split; [now apply pgf_roundtrip_eq|].
  split; [apply Permutation_expanded|].
  split; [apply Permutation_length, Permutation_expanded | reflexivity].
Qed.

(** X2. The decoded allocation is a fixed point of the codec: for a
    non-empty colon-free allocation, encoding what the decoder returned
    gives the bundles of the allocation again, and decoding those
    returns the same list. *)
Theorem pgf_roundtrip_canonical (alloc : list string) :
  alloc <> [] ->
  Forall (fun node => colon_free node = true) alloc ->
  exists alloc',
    (pgf <- allocation_to_pgf alloc ;; pgf_to_allocation pgf) = Ok alloc' /\
    allocation_to_pgf alloc' = allocation_to_pgf alloc /\
    (pgf <- allocation_to_pgf alloc' ;; pgf_to_allocation pgf) = Ok alloc'.
Proof.
  intros Hne Hfree. exists (expanded (Py.Counter alloc)).
  assert (Hne' : expanded (Py.Counter alloc) <> []).
  { intros Heq. pose proof (Permutation_expanded alloc) as Hp.
    rewrite Heq in Hp. apply Permutation_nil in Hp. contradiction. }
  assert (Hfree' : Forall (fun node => colon_free node = true)
                          (expanded (Py.Counter alloc))).
  { apply List.Forall_forall. intros x Hx.
    rewrite List.Forall_forall in Hfree. apply Hfree.
    now apply (Permutation_in _ (Permutation_expanded alloc)). }
  split; [now apply pgf_roundtrip_eq|]. split.
  - rewrite !allocation_to_pgf_eq by assumption. now rewrite Counter_expanded.
  - rewrite (pgf_roundtrip_eq _ Hne' Hfree'). now rewrite Counter_expanded.
Qed.

Lemma Permutation_Counter (a b : list string) :
  Permutation a b -> Permutation (Py.Counter a) (Py.Counter b).
Proof.
  intros Hp.
  destruct (Counter_spec a) as (Hnda & _ & Hina & Halla).
  destruct (Counter_spec b) as (Hndb & _ & Hinb & Hallb).
  assert (Hocc : forall k, occurrences a k = occurrences b k).
  { intros k. unfold occurrences. f_equal.
    now apply (Permutation_count_occ string_dec). }
  apply Stdlib.Sorting.Permutation.NoDup_Permutation.
  - now apply (@List.NoDup_map_inv _ _ fst).
  - now apply (@List.NoDup_map_inv _ _ fst).
  - intros [k n]. split; intros H.
    + destruct (Hina k n H) as (-> & _ & Hk). rewrite Hocc.
      apply Hallb. now apply (Permutation_in _ Hp).
    + destruct (Hinb k n H) as (-> & _ & Hk). rewrite <- Hocc.
      apply Halla. now apply (Permutation_in _ (Permutation_sym Hp)).
Qed.

(** X4. The order of an allocation only decides the order of its
    bundles: two non-empty allocations that are permutations of each
    other encode to the control bundle followed by the same bundles in
    possibly another order, and to the same replica count. *)
Theorem allocation_to_pgf_permutation (a b : list string) :
  a <> [] -> Permutation a b ->
  exists ra rb,
    allocation_to_pgf a = Ok (mkPGF ([("CPU", PyFloat (1 # 100))] :: ra)) /\
    allocation_to_pgf b = Ok (mkPGF ([("CPU", PyFloat (1 # 100))] :: rb)) /\
    Permutation ra rb /\
    _pgf_to_num_replicas (mkPGF ([("CPU", PyFloat (1 # 100))] :: ra))
    = _pgf_to_num_replicas (mkPGF ([("CPU", PyFloat (1 # 100))] :: rb)).
Proof.
  intros Hne Hp.
  assert (Hne' : b <> []).
  { intros ->. apply Permutation_sym, Permutation_nil in Hp. contradiction. }
  do 2 eexists.
  split; [now apply allocation_to_pgf_eq|].
  split; [now apply allocation_to_pgf_eq|]. split.
  - now apply Permutation_map, Permutation_Counter.
  - fold control_bundle. rewrite !num_replicas_encoded.
    destruct (Counter_spec a) as (_ & -> & _). 
    destruct (Counter_spec b) as (_ & -> & _).
    now rewrite (Permutation_length Hp).
Qed.

(** X5. An encoding holds one bundle for the control plane and one for
    every distinct node of the allocation. *)
Theorem allocation_to_pgf_length (alloc : list string) :
  alloc <> [] ->
  exists pgf,
    allocation_to_pgf alloc = Ok pgf /\
    length (_bundles pgf) = S (length (nodup string_dec alloc)).
Proof.
  intros Hne. eexists. split; [now apply allocation_to_pgf_eq|].
  simpl. f_equal. rewrite length_map.
  destruct (Counter_spec alloc) as (Hnd & _ & Hin & Hall).
  rewrite <- (length_map fst). apply Permutation_length, Stdlib.Sorting.Permutation.NoDup_Permutation.
  - exact Hnd.
  - apply List.NoDup_nodup.
  - intros k. rewrite List.nodup_In. split; intros H.
    + apply in_map_iff in H. destruct H as ([k' n] & <- & Hp).
      now apply (Hin k' n).
    + change k with (fst (k, occurrences alloc k)). now apply in_map, Hall.
Qed.

(** *** More on creating, requeueing and pausing *)

Lemma pop_index (l : list nat) (x : nat) :
  In x l -> List.NoDup l ->
  exists i,
    Py.index l x = Ok i /\
    Py.pop l i = List.remove Nat.eq_dec x l /\
    S (length (Py.pop l i)) = length l /\
    List.NoDup (Py.pop l i).
Proof.
  induction l as [|y l IH]; simpl; intros Hin Hnd; [easy|].
  inversion Hnd as [|? ? Hy Hnd']; subst.
  destruct (Nat.eqb_spec y x) as [->|Hne].
  - exists O. split; [reflexivity|]. simpl.
    destruct (Nat.eq_dec x x) as [_|]; [|congruence].
    rewrite (List.notin_remove Nat.eq_dec l x Hy). auto.
  - destruct Hin as [Heq|Hin]; [congruence|].
    destruct (IH Hin Hnd') as (i & Hi & Hrm & Hlen & Hnd'').
    exists (S i). rewrite Hi. split; [reflexivity|]. simpl.
    destruct (Nat.eq_dec x y) as [Heq|_]; [congruence|].
    rewrite Hrm, <- Hrm, Hlen. repeat split; auto.
    constructor; [|exact Hnd''].
    rewrite Hrm. intros Hin'. apply List.in_remove in Hin'. tauto.
Qed.

(** X8. [create_from] with the empty allocation raises AssertionError
    without building a trial, stopping the old one or touching the
    runner; but when it was asked to copy the state of a trial with an
    actor, the checkpoint has already been captured by then. *)
Theorem create_from_empty (t : trial) (copy_state : bool) (w : World) :
  exists w',
    create_from t [] copy_state w = (Raise Py.AssertionError, w') /\
    trial_runner w' = trial_runner w /\
    next_oid w' = next_oid w /\
    calls w' =
    calls w ++
    (if copy_state
     then match runner (trial_base t) with
          | Some a => capture_calls a (logdir (trial_base t)) w
          | None => []
          end
     else []).
Proof.
  destruct (checkpoint_stage_frame t copy_state w) as [Hoid Hrun].
  exists (snd (checkpoint_stage t copy_state w)). split.
  - unfold create_from.
    rewrite (mbind_Ok _ _ w (snd (checkpoint_stage t copy_state w))
               (fst (checkpoint_stage t copy_state w))).
    2:{ unfold checkpoint_stage.
        destruct copy_state; [destruct (runner (trial_base t))|];
          reflexivity. }
    apply mbind_Raise, _clone_from_empty.
  - split; [exact Hrun|]. split; [exact Hoid|].
    exact (after_calls_calls _ _ _ (after_calls_checkpoint t copy_state w)).
Qed.

(** X6. What [_requeue] does to the runner's list, in a runner that
    lists the old trial, no trial twice and not the new trial: the list
    becomes the old list without the old trial, in the same order,
    followed by the new trial; it keeps its length and still lists no
    trial twice; no object is created. *)
Theorem requeue_runner (self : AdaptDLTrial) (old : trial) (w : World) :
  List.NoDup (_trials (trial_runner w)) ->
  listed (oid (trial_base old)) (trial_runner w) ->
  ~ listed (oid (as_Trial self)) (trial_runner w) ->
  exists w',
    _requeue self old w = (Ok tt, w') /\
    _trials (trial_runner w')
    = List.remove Nat.eq_dec (oid (trial_base old)) (_trials (trial_runner w))
      ++ [oid (as_Trial self)] /\
    length (_trials (trial_runner w')) = length (_trials (trial_runner w)) /\
    List.NoDup (_trials (trial_runner w')) /\
    next_oid w' = next_oid w.
Proof.
  intros Hnd Hold Hnew.
  destruct (pop_index _ _ Hold Hnd) as (i & Hi & Hrm & Hlen & Hnd').
  eexists. split; [apply _requeue_eq; exact Hi|]. simpl.
  split; [now rewrite Hrm|]. split.
  - rewrite length_app. simpl. lia.
  - split; [|reflexivity].
    apply (Stdlib.Sorting.Permutation.Permutation_NoDup
             (Stdlib.Sorting.Permutation.Permutation_cons_append _ _)).
    constructor; [|exact Hnd'].
    rewrite Hrm. intros Hin. apply List.in_remove in Hin.
    apply Hnew. exact (proj1 Hin).
Qed.

(** X7. [_requeue] for an old trial that the runner does not list:
    [stop_trial] has been called on it by the time [index] raises
    ValueError, and the runner is as it was: the new trial is neither
    listed nor live. *)
Theorem requeue_unlisted (self : AdaptDLTrial) (old : trial) (w : World) :
  ~ listed (oid (trial_base old)) (trial_runner w) ->
  exists w',
    _requeue self old w = (Raise Py.ValueError, w') /\
    trial_runner w' = trial_runner w /\
    next_oid w' = next_oid w /\
    calls w' = calls w ++ [StopTrial (oid (trial_base old))].
Proof.
  intros Hnin. eexists. split; [now apply _requeue_unlisted|].
  split; [reflexivity|]. split; [reflexivity|]. apply calls_recorded.
Qed.

(** X9. [create_from] for a non-empty allocation returns no trial: the
    constructor that [_clone_from] calls raises TypeError on the
    [creation_timestamp] keyword, whatever the source trial, the
    allocation and [copy_state] are.  By then the checkpoint of a source
    with an actor has been captured, the trainable class asked for and
    the clock read; the old trial has not been stopped, no trial object
    has been handed over by the host, and the runner is as it was. *)
Theorem create_from_TypeError (t : trial) (alloc : list string)
    (copy_state : bool) (w : World) :
  alloc <> [] ->
  exists pgf w',
    allocation_to_pgf alloc = Ok pgf /\
    create_from t alloc copy_state w = (Raise Py.TypeError, w') /\
    trial_runner w' = trial_runner w /\
    next_oid w' = next_oid w /\
    calls w' = calls w ++ checkpoint_calls t copy_state w ++ clone_calls t pgf /\
    forall o,
      ~ In (StopTrial o) (checkpoint_calls t copy_state w ++ clone_calls t pgf)
      /\
      ~ In (NewTrial o) (checkpoint_calls t copy_state w ++ clone_calls t pgf).
Proof.
  intros Hne.
  destruct (create_from_eq t alloc copy_state w Hne) as (pgf & Hpgf & _ & Heq).
  pose proof (after_calls_recorded_all (clone_calls t pgf) _ _ _
                (after_calls_checkpoint t copy_state w)) as Hafter.
  exists pgf. eexists. split; [exact Hpgf|]. split; [exact Heq|].
  split; [exact (proj2 Hafter)|]. split.
  - destruct (checkpoint_stage_frame t copy_state w) as [Hoid _].
    now rewrite next_oid_recorded_all.
  - split; [exact (after_calls_calls _ _ _ Hafter)|].
    intros o. unfold checkpoint_calls, capture_calls.
    split; intros Hin; apply in_app_or in Hin;
      (destruct Hin as [Hin|Hin];
       [destruct copy_state; [destruct (runner (trial_base t))|]
       |destruct t]);
      simpl in Hin;
      repeat (destruct Hin as [Hin|Hin]; [discriminate|]); destruct Hin.
Qed.

(** X10. A trial built by the constructor without a
    [creation_timestamp] keyword: it is a new object in status PENDING
    with no actor and no cached metrics, its job identity is its trial
    identity, its rescale count is the keyword's or 0, and its creation
    timestamp is the clock read by the mixin.  Its [job_info] therefore
    calls nothing, carries that timestamp and uses the speedup function
    that returns the replica count unchanged. *)
Theorem new_trial_job_info (kw : Kwargs) (w : World) :
  kw_creation_timestamp kw = None ->
  exists new w',
    AdaptDLTrial_init kw w = (Ok new, w') /\
    calls w' = calls w ++ [DatetimeNow; NewTrial (next_oid w)] /\
    oid (as_Trial new) = next_oid w /\
    next_oid w' = S (next_oid w) /\
    status (as_Trial new) = PENDING /\
    runner (as_Trial new) = None /\
    _cached_metrics new = None /\
    job_id new = kw_trial_id kw /\
    rescale_count new = match kw_rescale_count kw with
                        | Some n => n
                        | None => 0
                        end /\
    creation_timestamp new = datetime_now w /\
    forall w2, exists info,
      job_info new w2 = (Ok (info, new), w2) /\
      job_creation_timestamp info = datetime_now w /\
      exists f, speedup_fn info = Lambda f /\ forall n r, f n r = r.
Proof.
  intros Hkw. do 2 eexists. split; [now apply AdaptDLTrial_init_Ok|].
  split.
  { rewrite calls_recorded. unfold calls. simpl. rewrite map_app.
    rewrite <- app_assoc. reflexivity. }
  repeat (split; [reflexivity|]).
  intros w2. eexists. split; [reflexivity|]. split; [reflexivity|].
  eexists. split; reflexivity.
Qed.

(** X13. The metrics cache: with an actor, [_fetch_metrics] returns
    what the actor's [get_sched_hints] answers, None included, stores
    it in place of whatever was cached and changes nothing else of the
    trial; once the actor is gone, [_fetch_metrics] returns that stored
    answer without any call and leaves the trial as it is. *)
Theorem fetch_metrics_cache (self : AdaptDLTrial) (a : Actor) (w : World) :
  runner (as_Trial self) = Some a ->
  _fetch_metrics self w
  = (Ok (get_sched_hints w a, set_cached_metrics (get_sched_hints w a) self),
     recorded (GetSchedHints a) w) /\
  forall stopped w2,
    runner (as_Trial stopped) = None ->
    _cached_metrics stopped = get_sched_hints w a ->
    _fetch_metrics stopped w2 = (Ok (get_sched_hints w a, stopped), w2).
Proof.
  intros Hr. split; [unfold _fetch_metrics; rewrite Hr; reflexivity|].
  intros stopped w2 Hnone Hc. unfold _fetch_metrics. rewrite Hnone, Hc.
  destruct (get_sched_hints w a); reflexivity.
Qed.

(** X14. What a trial reports as its allocation when it holds the
    encoding of a non-empty colon-free allocation and the
    placement-group manager's [trial_in_use] is attached to it: the
    manager is asked once; if it answers that the trial's bundles are in
    use, [allocation] returns a permutation of the allocation encoded,
    and the empty allocation if not. *)
Theorem allocation_of_encoded (self : AdaptDLTrial) (alloc : list string)
    (pgf : PlacementGroupFactory) (w : World) :
  alloc <> [] ->
  Forall (fun node => colon_free node = true) alloc ->
  allocation_to_pgf alloc = Ok pgf ->
  placement_group_factory (as_Trial self) = Some pgf ->
  _trial_in_use self = true ->
  exists reported,
    allocation self w
    = (Ok reported, recorded (TrialInUse (oid (as_Trial self))) w) /\
    if trial_in_use w (oid (as_Trial self))
    then Permutation reported alloc
    else reported = [].
Proof.
  intros Hne Hfree Hpgf Hp Hu. unfold allocation, _allocation_in_use.
  rewrite Hp, Hu. unfold mbind, host.
  pose proof (pgf_roundtrip_eq alloc Hne Hfree) as Hrt.
  rewrite Hpgf in Hrt. unfold Py.bind in Hrt.
  destruct (trial_in_use w (oid (as_Trial self))).
  - exists (expanded (Py.Counter alloc)). unfold lift. rewrite Hrt.
    split; [reflexivity | apply Permutation_expanded].
  - exists []. split; reflexivity.
Qed.


(** *** The test allocators *)

Lemma allocate_any (self : IncrAllocator) (job : AdaptDLTrial)
    (node : string) (info : NodeInfo) (nodes : Py.dict NodeInfo) :
  _node_infos self = (node, info) :: nodes ->
  let cur :=
    if _num_replicas job =? _cur_cpus self
    then Z.min (_cur_cpus self + 1) (_avail_cpus self)
    else _cur_cpus self in
  allocate self [job] =
  Ok ([(job_id job, Py.replicate node cur)], 0,
      mkIncrAllocator (_node_infos self) (_avail_cpus self) cur).
Proof.
  destruct self as [infos avail cur0]. cbn [_node_infos]. intros ->.
  cbv zeta. unfold allocate, Py.index_at.
  cbn [nth_error _cur_cpus _avail_cpus _node_infos]. unfold Py.bind at 1.
  destruct (_num_replicas job =? cur0); reflexivity.
Qed.

(** X16. The increment allocator never grants more than is available
    and never takes back: from a counter between 0 and the number of
    available CPUs, any sequence of [allocate] calls, whatever the
    replica counts of the jobs, succeeds and grants entries of the
    first node only, in numbers that stay between the counter and the
    available CPUs and never decrease from one call to the next. *)
Theorem incr_run_bounds (jobs : list AdaptDLTrial) (self : IncrAllocator)
    (node : string) (info : NodeInfo) (nodes : Py.dict NodeInfo) :
  _node_infos self = (node, info) :: nodes ->
  0 <= _cur_cpus self -> _cur_cpus self <= _avail_cpus self ->
  exists sizes,
    incr_run self jobs = Ok (map (Py.replicate node) sizes) /\
    length sizes = length jobs /\
    Forall (fun n => _cur_cpus self <= n <= _avail_cpus self) sizes /\
    Sorted.StronglySorted Z.le sizes.
Proof.
  revert self. induction jobs as [|job jobs IH]; intros self Hnodes H0 Hle.
  - exists []. repeat split; constructor.
  - cbn [incr_run]. rewrite (allocate_any self job node info nodes Hnodes).
    cbv zeta. unfold Py.bind at 1. unfold Py.getitem. cbn [Py.get].
    rewrite String.eqb_refl. unfold Py.bind at 1.
    set (cur := if _num_replicas job =? _cur_cpus self
                then Z.min (_cur_cpus self + 1) (_avail_cpus self)
                else _cur_cpus self).
    assert (Hcur : _cur_cpus self <= cur <= _avail_cpus self).
    { unfold cur. destruct (_num_replicas job =? _cur_cpus self); lia. }
    destruct (IH (mkIncrAllocator (_node_infos self) (_avail_cpus self) cur))
      as (sizes & Hrun & Hlen & Hall & Hsorted);
      [exact Hnodes | cbn; lia | cbn; lia |].
    cbn [_cur_cpus _avail_cpus] in Hall.
    exists (cur :: sizes). rewrite Hrun. unfold Py.bind.
    split; [reflexivity|]. split; [simpl; now rewrite Hlen|]. split.
    + constructor; [exact Hcur|].
      eapply List.Forall_impl; [|exact Hall]. simpl. intros n Hn. lia.
    + constructor; [exact Hsorted|].
      eapply List.Forall_impl; [|exact Hall]. simpl. intros n Hn. lia.
Qed.

Lemma int_sub_cpus (cpu : Py.number) (n : Z) :
  cpus cpu n -> Py.int (Py.sub cpu (PyInt 1)) = n - 1.
Proof.
  intros [Hv _]. destruct cpu as [z|[a b]]; simpl in *; [lia|].
  unfold Qeq in Hv. simpl in Hv. rewrite Pos.mul_1_r.
  match goal with
  | |- Z.quot ?x _ = _ => replace x with ((n - 1) * Z.pos b) by lia
  end.
  apply Z.quot_mul. discriminate.
Qed.

(** X17. The increment scenario on any cluster whose first node reports
    a whole number [n] of CPUs, at least 1: the allocator starts with
    [n - 1] units available, and a job starting at 1 replica is granted
    min (2 + i, n - 1) entries of the first node in the cycle of index
    [i], which is nothing at all when the node has a single CPU. *)
Theorem incr_cycles_any_cluster (node : string) (info : NodeInfo)
    (nodes : Py.dict NodeInfo) (cpu : Py.number) (n : Z)
    (job : AdaptDLTrial) (k : nat) :
  Py.get (resources info) "CPU" = Some cpu ->
  cpus cpu n ->
  1 <= n ->
  _num_replicas job = 1 ->
  exists self,
    IncrAllocator_init ((node, info) :: nodes) = Ok self /\
    _avail_cpus self = n - 1 /\
    cycles k self job =
    Ok (map (fun i => Py.replicate node (Z.min (2 + Z.of_nat i) (n - 1)))
            (seq 0 k)).
Proof.
  intros Hcpu Hn Hpos Hjob. pose proof (int_sub_cpus cpu n Hn) as Hint.
  exists (mkIncrAllocator ((node, info) :: nodes) (n - 1) 1).
  split.
  - unfold IncrAllocator_init, Py.index_at. cbn [map snd nth_error].
    unfold Py.bind at 1. unfold Py.getitem. rewrite Hcpu.
    unfold Py.bind. now rewrite Hint.
  - split; [reflexivity|].
    erewrite cycles_eq; [| reflexivity | cbn; lia | cbn; lia | exact Hjob].
    apply f_equal, map_ext. intros i. cbn [_cur_cpus _avail_cpus].
    reflexivity.
Qed.

Lemma decr_allocate_any (self : DecrAllocator) (job : AdaptDLTrial)
    (node : string) (info : NodeInfo) (nodes : Py.dict NodeInfo) :
  decr_node_infos self = (node, info) :: nodes ->
  let cur :=
    if _num_replicas job =? decr_cur_cpus self
    then Z.max (decr_cur_cpus self - 1) 1
    else decr_cur_cpus self in
  decr_allocate self [job] =
  (Ok ([(job_id job, Py.replicate node cur)], 0),
   mkDecrAllocator (decr_node_infos self) (decr_avail_cpus self) cur).
Proof.
  destruct self as [infos avail cur0]. cbn [decr_node_infos]. intros ->.
  cbv zeta. unfold decr_allocate, Py.index_at.
  cbn [nth_error decr_cur_cpus decr_avail_cpus decr_node_infos].
  destruct (_num_replicas job =? cur0); reflexivity.
Qed.

(** X18. The decrement allocator never grants less than one unit and
    never gives back: from a counter of at least 1, any sequence of
    [allocate] calls, whatever the replica counts of the jobs, succeeds
    and grants entries of the first node only, in numbers that stay
    between 1 and the counter and never increase from one call to the
    next. *)
Theorem decr_run_bounds (jobs : list AdaptDLTrial) (self : DecrAllocator)
    (node : string) (info : NodeInfo) (nodes : Py.dict NodeInfo) :
  decr_node_infos self = (node, info) :: nodes ->
  1 <= decr_cur_cpus self ->
  exists sizes,
    decr_run self jobs = Ok (map (Py.replicate node) sizes) /\
    length sizes = length jobs /\
    Forall (fun n => 1 <= n <= decr_cur_cpus self) sizes /\
    Sorted.StronglySorted Z.ge sizes.
Proof.
  revert self. induction jobs as [|job jobs IH]; intros self Hnodes H1.
  - exists []. repeat split; constructor.
  - cbn [decr_run].
    rewrite (decr_allocate_any self job node info nodes Hnodes).
    cbv zeta. unfold Py.bind at 1. cbn [fst]. unfold Py.getitem.
    cbn [Py.get]. rewrite String.eqb_refl. unfold Py.bind at 1.
    set (cur := if _num_replicas job =? decr_cur_cpus self
                then Z.max (decr_cur_cpus self - 1) 1
                else decr_cur_cpus self).
    assert (Hcur : 1 <= cur <= decr_cur_cpus self).
    { unfold cur. destruct (_num_replicas job =? decr_cur_cpus self); lia. }
    destruct (IH (mkDecrAllocator (decr_node_infos self)
                                  (decr_avail_cpus self) cur))
      as (sizes & Hrun & Hlen & Hall & Hsorted);
      [exact Hnodes | cbn; lia |].
    cbn [decr_cur_cpus] in Hall.
    exists (cur :: sizes). rewrite Hrun. unfold Py.bind.
    split; [reflexivity|]. split; [simpl; now rewrite Hlen|]. split.
    + constructor; [exact Hcur|].
      eapply List.Forall_impl; [|exact Hall]. simpl. intros n Hn. lia.
    + constructor; [exact Hsorted|].
      eapply List.Forall_impl; [|exact Hall]. simpl. intros n Hn. lia.
Qed.

Lemma decr_cycles_eq (k : nat) (self : DecrAllocator) (job : AdaptDLTrial)
    (node : string) (info : NodeInfo) (nodes : Py.dict NodeInfo) :
  decr_node_infos self = (node, info) :: nodes ->
  1 <= decr_cur_cpus self ->
  _num_replicas job = decr_cur_cpus self ->
  decr_cycles k self job =
  Ok (map (fun i => Py.replicate node
                      (Z.max (decr_cur_cpus self - 1 - Z.of_nat i) 1))
          (seq 0 k)).
Proof.
  revert self job. induction k as [|k IH]; intros self job Hnodes H1 Hn.
  - reflexivity.
  - cbn [decr_cycles].
    rewrite (decr_allocate_any self job node info nodes Hnodes).
    cbv zeta. rewrite Hn, Z.eqb_refl.
    unfold Py.bind at 1. cbn [fst]. unfold Py.getitem. cbn [Py.get].
    rewrite String.eqb_refl. unfold Py.bind at 1.
    set (cur := Z.max (decr_cur_cpus self - 1) 1).
    assert (Hcur : 1 <= cur) by (unfold cur; lia).
    rewrite (IH (mkDecrAllocator (decr_node_infos self)
                                 (decr_avail_cpus self) cur)
                (resized (Z.of_nat (length (Py.replicate node cur))) job));
      try assumption.
    + unfold Py.bind. cbn [seq map decr_cur_cpus]. f_equal. f_equal.
      * f_equal. unfold cur. lia.
      * rewrite <- seq_shift, map_map. apply map_ext. intros i.
        f_equal. unfold cur. lia.
    + cbn [_num_replicas decr_cur_cpus]. apply length_replicate. lia.
Qed.

(** X19. The decrement scenario on any cluster whose first node reports
    a whole number [n] of CPUs, at least 2: the allocator starts with
    its counter at [n - 1], and a job starting with that many replicas
    is granted max (n - 2 - i, 1) entries of the first node in the
    cycle of index [i]: it shrinks by one unit per cycle and stays at
    the floor of 1. *)
Theorem decr_cycles_any_cluster (node : string) (info : NodeInfo)
    (nodes : Py.dict NodeInfo) (cpu : Py.number) (n : Z)
    (job : AdaptDLTrial) (k : nat) :
  Py.get (resources info) "CPU" = Some cpu ->
  cpus cpu n ->
  2 <= n ->
  _num_replicas job = n - 1 ->
  exists self,
    DecrAllocator_init ((node, info) :: nodes) = Ok self /\
    decr_cur_cpus self = n - 1 /\
    decr_cycles k self job =
    Ok (map (fun i => Py.replicate node (Z.max (n - 2 - Z.of_nat i) 1))
            (seq 0 k)).
Proof.
  intros Hcpu Hn Hpos Hjob. pose proof (int_sub_cpus cpu n Hn) as Hint.
  exists (mkDecrAllocator ((node, info) :: nodes) (n - 1) (n - 1)).
  split.
  - unfold DecrAllocator_init, Py.index_at. cbn [map snd nth_error].
    unfold Py.bind at 1. unfold Py.getitem. rewrite Hcpu.
    unfold Py.bind. now rewrite Hint.
  - split; [reflexivity|].
    erewrite decr_cycles_eq; [| reflexivity | cbn; lia | exact Hjob].
    apply f_equal, map_ext. intros i. cbn [decr_cur_cpus].
    f_equal. lia.
Qed.

Lemma pausing_allocate_job (self : PausingAllocator) (job : AdaptDLTrial)
    (node : string) (info : NodeInfo) (nodes : Py.dict NodeInfo) :
  pausing_node_infos self = (node, info) :: nodes ->
  pausing_allocate self [job] =
  (Ok ([(job_id job,
         if _toggle self then Py.replicate node (pausing_cur_cpus self)
         else [])], 0),
   mkPausingAllocator (pausing_node_infos self) (pausing_avail_cpus self)
                      (pausing_cur_cpus self) (negb (_toggle self))).
Proof.
  destruct self as [infos avail cur toggle]. cbn [pausing_node_infos].
  intros ->. destruct toggle; reflexivity.
Qed.

(** X20. The pausing allocator alternates whatever the jobs are: from
    an allocator with a node table, successive [allocate] calls grant
    by turns [_cur_cpus] entries of the first node and the empty
    allocation, starting with the former when the toggle is set; the
    toggle at the end is the one at the start after an even number of
    calls and the opposite after an odd number. *)
Theorem pausing_run_alternates (jobs : list AdaptDLTrial)
    (self : PausingAllocator) (node : string) (info : NodeInfo)
    (nodes : Py.dict NodeInfo) :
  pausing_node_infos self = (node, info) :: nodes ->
  exists self',
    pausing_run self jobs =
    (Ok (map (fun i => if Bool.eqb (Nat.even i) (_toggle self)
                       then Py.replicate node (pausing_cur_cpus self)
                       else [])
             (seq 0 (length jobs))),
     self') /\
    _toggle self' = Bool.eqb (Nat.even (length jobs)) (_toggle self) /\
    pausing_node_infos self' = pausing_node_infos self /\
    pausing_cur_cpus self' = pausing_cur_cpus self.
Proof.
  revert self. induction jobs as [|job jobs IH]; intros self Hnodes.
  - exists self. simpl. repeat split. now destruct (_toggle self).
  - cbn [pausing_run].
    rewrite (pausing_allocate_job self job node info nodes Hnodes).
    cbn [fst]. unfold Py.getitem. cbn [Py.get]. rewrite String.eqb_refl.
    destruct (IH (mkPausingAllocator (pausing_node_infos self)
                    (pausing_avail_cpus self) (pausing_cur_cpus self)
                    (negb (_toggle self))))
      as (self' & Hrun & Htog & Hinf & Hcur); [exact Hnodes|].
    rewrite Hrun. exists self'. cbn [_toggle pausing_cur_cpus] in *.
    split; [|split; [|split; assumption]].
    + unfold Py.bind. cbn [length seq map]. do 3 f_equal.
      * now destruct (_toggle self).
      * rewrite <- seq_shift, map_map. apply map_ext. intros i.
        rewrite Nat.even_succ, <- Nat.negb_even.
        now destruct (Nat.even i), (_toggle self).
    + rewrite Htog. cbn [length].
      rewrite Nat.even_succ, <- Nat.negb_even.
      now destruct (Nat.even (length jobs)), (_toggle self).
Qed.

(** X21. On an empty job list every allocator raises IndexError. The
    decrement allocator is left as it was; the pausing allocator has
    flipped its toggle before it reads the list, so the failed call
    still uses up a turn of the alternation. *)
Theorem allocate_no_jobs (incr : IncrAllocator) (decr : DecrAllocator)
    (pausing : PausingAllocator) :
  allocate incr [] = Raise Py.IndexError /\
  decr_allocate decr [] = (Raise Py.IndexError, decr) /\
  exists pausing',
    pausing_allocate pausing [] = (Raise Py.IndexError, pausing') /\
    _toggle pausing' = negb (_toggle pausing) /\
    pausing_cur_cpus pausing' = pausing_cur_cpus pausing /\
    pausing_node_infos pausing' = pausing_node_infos pausing.
Proof.
  split; [reflexivity|]. split; [reflexivity|].
  unfold pausing_allocate. destruct (_toggle pausing);
    eexists; repeat split.
Qed.

(** *** Pickling *)

Lemma get_setitem {V} (d : Py.dict V) (k k' : string) (v : V) :
  Py.get (Py.setitem d k v) k' =
  if String.eqb k k' then Some v else Py.get d k'.
Proof.
  induction d as [|[k0 v0] d IH]; simpl.
  - reflexivity.
  - destruct (String.eqb_spec k0 k) as [->|Hne]; simpl.
    + destruct (String.eqb k k'); reflexivity.
    + destruct (String.eqb_spec k0 k') as [->|Hne'].
      * destruct (String.eqb_spec k k'); [congruence | reflexivity].
      * exact IH.
Qed.

Lemma get_absent {V} (d : Py.dict V) (k : string) :
  ~ In k (keys d) -> Py.get d k = None.
Proof.
  induction d as [|[k0 v0] d IH]; simpl; intros H; [reflexivity|].
  destruct (String.eqb_spec k0 k) as [->|_]; [tauto|].
  apply IH. tauto.
Qed.

Lemma delitem_cases {V} (d : Py.dict V) (k : string) :
  match Py.get d k with
  | None => Py.delitem d k = Raise Py.KeyError
  | Some _ =>
      exists d',
        Py.delitem d k = Ok d' /\
        (forall k', k' <> k -> Py.get d' k' = Py.get d k') /\
        (forall k', In k' (keys d') -> In k' (keys d)) /\
        (List.NoDup (keys d) -> ~ In k (keys d') /\ List.NoDup (keys d'))
  end.
Proof.
  induction d as [|[k0 v0] d IH]; simpl; [reflexivity|].
  destruct (String.eqb_spec k0 k) as [->|Hne].
  - exists d. split; [reflexivity|]. split; [|split].
    + intros k' Hk'. destruct (String.eqb_spec k k'); [congruence|reflexivity].
    + intros k' Hk'. now right.
    + intros Hnd. inversion Hnd; subst. now split.
  - destruct (Py.get d k) as [v|].
    + destruct IH as (d' & -> & Hother & Hsub & Hgone).
      exists ((k0, v0) :: d'). split; [reflexivity|]. split; [|split].
      * intros k' Hk'. simpl. now rewrite (Hother k' Hk').
      * intros k' [<-|Hk']; [now left | right; now apply Hsub].
      * intros Hnd. inversion Hnd as [|? ? Hk Hnd']; subst.
        destruct (Hgone Hnd') as [Hg Hnd'']. split.
        -- simpl. intros [Heq|Hin]; [congruence | contradiction].
        -- constructor; [|exact Hnd'']. intros Hin. apply Hk.
           now apply Hsub.
    + now rewrite IH.
Qed.

Lemma get_hex_loop {Value} (fields : list string)
    (state : Py.dict (attr Value)) (k : string) :
  ~ In k fields ->
  Py.get
    (fold_left
       (fun state key =>
          Py.setitem state key (AttrHex (Py.get_default state key AttrNone)))
       fields state) k
  = Py.get state k.
Proof.
  revert state. induction fields as [|f fields IH]; intros state Hk; simpl.
  - reflexivity.
  - rewrite IH by (intros H; apply Hk; now right). rewrite get_setitem.
    destruct (String.eqb_spec f k) as [->|_]; [|reflexivity].
    exfalso. apply Hk. now left.
Qed.

(** X22. A trial can be pickled only once [create_from] has prepared
    it: [__getstate__] raises KeyError when the trial's attributes lack
    [_trial_in_use], which only [create_from] sets, or
    [_cached_metrics]; when both are there it returns a state. *)
Theorem getstate_KeyError {Value : Type} (fields : list string)
    (self_resources : attr Value) (__dict__ : Py.dict (attr Value)) :
  match Py.get __dict__ "_trial_in_use", Py.get __dict__ "_cached_metrics"
  with
  | Some _, Some _ =>
      exists state, __getstate__ fields self_resources __dict__ = Ok state
  | _, _ => __getstate__ fields self_resources __dict__ = Raise Py.KeyError
  end.
Proof.
  unfold __getstate__.
  pose proof (delitem_cases __dict__ "_trial_in_use") as H1.
  destruct (Py.get __dict__ "_trial_in_use") as [v1|].
  - destruct H1 as (d1 & -> & Hother & _). unfold Py.bind at 1. cbv beta.
    pose proof (delitem_cases d1 "_cached_metrics") as H2.
    rewrite (Hother "_cached_metrics") in H2 by discriminate.
    destruct (Py.get __dict__ "_cached_metrics") as [v2|].
    + destruct H2 as (d2 & Hd2 & _). eexists. rewrite Hd2. reflexivity.
    + unfold Py.bind at 1. cbv beta. now rewrite H2.
  - rewrite H1. reflexivity.
Qed.

(** X23. The state [__getstate__] returns for a trial whose attribute
    names are distinct: it holds neither [_trial_in_use] nor
    [_cached_metrics] (when the host does not list them among its
    non-JSON fields); the actor and the pending save and restore are
    None, the location is a new one, the cached JSON state is None and
    marked invalid; and every attribute that is not rewritten (not
    [resources], not a non-JSON field, not one of those reset) is the
    one of the trial. *)
Theorem getstate_state {Value : Type} (fields : list string)
    (self_resources : attr Value) (__dict__ state : Py.dict (attr Value)) :
  List.NoDup (keys __dict__) ->
  ~ In "_trial_in_use" fields -> ~ In "_cached_metrics" fields ->
  __getstate__ fields self_resources __dict__ = Ok state ->
  Py.get state "_trial_in_use" = None /\
  Py.get state "_cached_metrics" = None /\
  Py.get state "runner" = Some AttrNone /\
  Py.get state "location" = Some AttrLocation /\
  Py.get state "restoring_from" = Some AttrNone /\
  Py.get state "saving_to" = Some AttrNone /\
  Py.get state "_state_json" = Some AttrNone /\
  Py.get state "_state_valid" = Some AttrFalse /\
  (~ In "resources" fields ->
   Py.get state "resources" = Some (AttrJson self_resources)) /\
  (forall k,
     k <> "_trial_in_use" -> k <> "_cached_metrics" -> k <> "resources" ->
     ~ In k fields -> ~ In k reset_names ->
     Py.get state k = Py.get __dict__ k).
Proof.
  intros Hnd Hf1 Hf2. unfold __getstate__.
  pose proof (delitem_cases __dict__ "_trial_in_use") as H1.
  destruct (Py.get __dict__ "_trial_in_use") as [v1|];
    [|rewrite H1; discriminate].
  destruct H1 as (d1 & -> & Hother1 & _ & Hgone1). unfold Py.bind at 1.
  cbv beta. destruct (Hgone1 Hnd) as [Hno1 Hnd1].
  pose proof (delitem_cases d1 "_cached_metrics") as H2.
  destruct (Py.get d1 "_cached_metrics") as [v2|];
    [|rewrite H2; discriminate].
  destruct H2 as (d2 & -> & Hother2 & Hsub2 & Hgone2). unfold Py.bind.
  destruct (Hgone2 Hnd1) as [Hno2 _].
  intros Heq. inversion Heq; subst state. clear Heq.
  assert (Hd2a : Py.get d2 "_trial_in_use" = None).
  { apply get_absent. intros Hin. now apply Hno1, Hsub2. }
  assert (Hd2b : Py.get d2 "_cached_metrics" = None)
    by now apply get_absent.
  repeat rewrite get_setitem. cbn [String.eqb Ascii.eqb Bool.eqb].
  repeat split; try reflexivity.
  - rewrite get_hex_loop by assumption. now rewrite get_setitem.
  - rewrite get_hex_loop by assumption. now rewrite get_setitem.
  - intros Hr. rewrite get_hex_loop by assumption. rewrite get_setitem.
    reflexivity.
  - intros k Hk1 Hk2 Hk3 Hk4 Hk5. repeat rewrite get_setitem.
    unfold reset_names in Hk5. simpl in Hk5.
    repeat match goal with
           | |- context [String.eqb ?a k] =>
               destruct (String.eqb_spec a k); [tauto|]
           end.
    rewrite get_hex_loop by assumption. rewrite get_setitem.
    destruct (String.eqb_spec "resources" k); [congruence|].
    rewrite Hother2, Hother1 by assumption. reflexivity.
Qed.

End AdaptDL.

(** ** A concrete run *)

(** One node, one trial on it, a clock that reads 200. *)
Module Run.

Definition W : Type := World unit unit nat string unit unit.

Definition datetime_now (w : W) : Z := 200.

Definition save_all_states (w : W) (a : nat) : string := "state".

Definition mk_temp_checkpoint_dir (w : W) (dir : option string) : string :=
  "/logs/t1/tmp".

Definition create_from_pickle (w : W) (obj dir : string) : string :=
  (dir ++ "/checkpoint")%string.

Definition trial_in_use (w : W) (o : nat) : bool := false.

(** A trial created at time 100, rescaled twice, running on actor 7
    with two workers. *)
Definition old_trial : AdaptDLTrial unit unit nat unit unit :=
  mkAdaptDLTrial _ _ _ _ _
    (mkTrial _ _ _ 0 (mkTrainableCls _ tt 2 2) tt "exp" "t1" None "/tmp"
             (Some "/logs/t1") None RUNNING (Some 7%nat))
    2 None "t1" 100 true.

(** The same trial once paused: no actor, a checkpoint to restore. *)
Definition paused_trial : AdaptDLTrial unit unit nat unit unit :=
  mkAdaptDLTrial _ _ _ _ _
    (mkTrial _ _ _ 0 (mkTrainableCls _ tt 2 2) tt "exp" "t1"
             (Some "/logs/t1/ckpt") "/tmp" (Some "/logs/t1") None PAUSED None)
    2 None "t1" 100 true.

(** A job at one replica. *)
Definition first_job : AdaptDLTrial unit unit nat unit unit :=
  mkAdaptDLTrial _ _ _ _ _
    (mkTrial _ _ _ 0 (mkTrainableCls _ tt 1 0) tt "exp" "t1" None "/tmp"
             None None PENDING None)
    0 None "t1" 100 true.

(** A runner that holds the trial, object 0, and nothing else. *)
Definition w0 : W := mkWorld _ _ _ _ _ _ 1 (mkRunner [0%nat] {[ 0%nat ]}) [].

Definition get_sched_hints (w : W) (a : nat) : option (SchedHints unit unit) :=
  Some (mkSchedHints _ _ tt tt).

(** The keywords of a constructor call that leaves
    [creation_timestamp] out, for three workers on rescale 3. *)
Definition new_kwargs : Kwargs unit unit :=
  mkKwargs _ _ (mkTrainableCls _ tt 3 3) None (Some 3) tt "exp" "t1" None
           "/tmp"
           (Some (mkPGF [ [("CPU", PyFloat (1 # 100))];
                          [("CPU", PyInt 3);
                           ("node:10.0.0.1", PyFloat (1 # 100))] ])).

(** The trial that the constructor builds from them in [w0], object 1,
    and the world after. *)
Definition new_trial : AdaptDLTrial unit unit nat unit unit :=
  mkAdaptDLTrial _ _ _ _ _
    (mkTrial _ _ _ 1 (mkTrainableCls _ tt 3 3) tt "exp" "t1" None "/tmp"
             None
             (Some (mkPGF [ [("CPU", PyFloat (1 # 100))];
                            [("CPU", PyInt 3);
                             ("node:10.0.0.1", PyFloat (1 # 100))] ]))
             PENDING None)
    3 None "t1" 200 false.

Definition w1 : W :=
  mkWorld _ _ _ _ _ _ 2 (mkRunner [0%nat] {[ 0%nat ]})
          [(DatetimeNow _ _ _ _ _ _, mkRunner [0%nat] {[ 0%nat ]});
           (NewTrial _ _ _ _ _ _ 1, mkRunner [0%nat] {[ 0%nat ]})].

(** A runner that lists no trial. *)
Definition w_empty : W := mkWorld _ _ _ _ _ _ 1 (mkRunner [] ∅) [].


(** A job at four replicas. *)
Definition full_job : AdaptDLTrial unit unit nat unit unit :=
  mkAdaptDLTrial _ _ _ _ _
    (mkTrial _ _ _ 0 (mkTrainableCls _ tt 4 0) tt "exp" "t1" None "/tmp"
             None None PENDING None)
    0 None "t1" 100 true.

(** The attributes of a trial to which [_trial_in_use] is attached. *)
Definition attributes : Py.dict (attr nat) :=
  [("trial_id", AttrValue 1%nat); ("_cached_metrics", AttrNone);
   ("runner", AttrValue 7%nat); ("_trial_in_use", AttrValue 2%nat)].


(** The allocators of the test cluster. *)
Definition incr : IncrAllocator :=
  mkIncrAllocator (test_cluster "10.0.0.1" []) 4 1.

Definition decr : DecrAllocator :=
  mkDecrAllocator (test_cluster "10.0.0.1" []) 4 4.

Definition pausing : PausingAllocator :=
  mkPausingAllocator (test_cluster "10.0.0.1" []) 4 1 true.

(** The state that [__getstate__] returns for [attributes]. *)
Definition pickled : Py.dict (attr nat) :=
  match __getstate__ ["_last_result"] (AttrValue 3%nat) attributes with
  | Py.Ok state => state
  | Py.Raise _ => []
  end.

End Run.

Example split_node_key :
  Py.split colon "node:10.0.0.1" = ["node"; "10.0.0.1"].
Proof. reflexivity. Qed.

Example split_node_key_colons :
  Py.split colon "node:fe80::1" = ["node"; "fe80"; ""; "1"].
Proof. reflexivity. Qed.

Example Counter_first_occurrence :
  Py.Counter ["b"; "a"; "b"] = [("b", 2); ("a", 1)].
Proof. reflexivity. Qed.

Example int_of_fraction : Py.int (PyFloat (1 # 100)) = 0.
Proof. reflexivity. Qed.

Example allocation_to_pgf_CPU :
  allocation_to_pgf CPU ["a"; "b"; "a"] =
  Ok (mkPGF [ [("CPU", PyFloat (1 # 100))];
              [("CPU", PyInt 2); ("node:a", PyFloat (1 # 100))];
              [("CPU", PyInt 1); ("node:b", PyFloat (1 # 100))] ]).
Proof. reflexivity. Qed.

Example allocation_to_pgf_GPU :
  allocation_to_pgf GPU ["a"; "b"; "a"] =
  Ok (mkPGF [ [("CPU", PyFloat (1 # 100))];
              [("GPU", PyInt 2); ("node:a", PyFloat (1 # 100));
               ("CPU", PyInt 2)];
              [("GPU", PyInt 1); ("node:b", PyFloat (1 # 100));
               ("CPU", PyInt 1)] ]).
Proof. reflexivity. Qed.

Example pgf_to_allocation_GPU :
  (pgf <- allocation_to_pgf GPU ["a"; "b"; "a"] ;; pgf_to_allocation GPU pgf)
  = Ok ["a"; "a"; "b"].
Proof. reflexivity. Qed.

Example pgf_to_allocation_placeholder :
  pgf_to_allocation CPU placeholder = Ok [].
Proof. reflexivity. Qed.

Example IncrAllocator_init_test_cluster :
  IncrAllocator_init (test_cluster "10.0.0.1" [])
  = Ok (mkIncrAllocator (test_cluster "10.0.0.1" []) 4 1).
Proof. reflexivity. Qed.

(** C3, as stated: on the test's cluster of 5 CPUs the allocations of
    five cycles from 1 replica have 2, 3, 4, 4 and 4 entries; the job
    never reaches 5. *)
Lemma incr_ceiling_is_four :
  exists self allocs,
    IncrAllocator_init (test_cluster "10.0.0.1" []) = Ok self /\
    cycles _ _ _ _ _ 5 self Run.first_job = Ok allocs /\
    map (@length string) allocs = [2; 3; 4; 4; 4]%nat /\
    map (@length string) allocs <> [2; 3; 4; 5; 5]%nat.
Proof.
  do 2 eexists. split; [reflexivity|]. split; [vm_compute; reflexivity|].
  split; [reflexivity | discriminate].
Qed.

Example AdaptDLTrial_init_new_trial :
  AdaptDLTrial_init _ _ _ _ _ _ Run.datetime_now Run.new_kwargs Run.w0
  = (Ok Run.new_trial, Run.w1).
Proof. reflexivity. Qed.

(** C4, at a clone of a trial created at time 100 and rescaled twice,
    made when the clock reads 200: [_clone_from] hands the timestamp 100
    to the constructor as a keyword; the mixin's constructor does not
    take it, reads the clock instead and passes the keyword on to the
    host's constructor, which raises TypeError.  No clone is built. *)
Theorem clone_creation_timestamp_TypeError :
  creation_timestamp _ _ _ _ _ Run.old_trial = 100 /\
  rescale_count _ _ _ _ _ Run.old_trial = 2 /\
  Run.datetime_now Run.w0 = 200 /\
  exists w',
    _clone_from _ _ _ _ _ _ CPU Run.datetime_now
                (Adapt _ _ _ _ _ Run.old_trial) ["10.0.0.1"] None Run.w0
    = (Raise Py.TypeError, w') /\
    calls _ _ _ _ _ _ w'
    = [CreateTrainable _ _ _ _ _ _ (mkTrainableCls _ tt 1 3);
       DatetimeNow _ _ _ _ _ _] /\
    next_oid _ _ _ _ _ _ w' = next_oid _ _ _ _ _ _ Run.w0 /\
    trial_runner _ _ _ _ _ _ w' = trial_runner _ _ _ _ _ _ Run.w0.
Proof.
  do 3 (split; [reflexivity|]). eexists.
  split; [vm_compute; reflexivity|]. split; [reflexivity|].
  split; reflexivity.
Qed.

(** C6, at a paused trial and at a running one, each asked for one
    unit on a node with [copy_state] set: for the paused trial no
    checkpoint is captured, for the running one the checkpoint is
    captured first; either way the constructor then raises TypeError on
    the [creation_timestamp] keyword, so that no new trial exists to
    restore from the path, and the runner is as it was. *)
Theorem create_from_restore_path_TypeError :
  (exists w',
     create_from _ _ _ _ _ _ CPU Run.datetime_now Run.save_all_states
                 Run.mk_temp_checkpoint_dir Run.create_from_pickle
                 (Adapt _ _ _ _ _ Run.paused_trial) ["10.0.0.1"] true Run.w0
     = (Raise Py.TypeError, w') /\
     restore_path _ _ _ (as_Trial _ _ _ _ _ Run.paused_trial)
     = Some "/logs/t1/ckpt" /\
     calls _ _ _ _ _ _ w'
     = [CreateTrainable _ _ _ _ _ _ (mkTrainableCls _ tt 1 3);
        DatetimeNow _ _ _ _ _ _] /\
     trial_runner _ _ _ _ _ _ w' = trial_runner _ _ _ _ _ _ Run.w0) /\
  (exists w',
     create_from _ _ _ _ _ _ CPU Run.datetime_now Run.save_all_states
                 Run.mk_temp_checkpoint_dir Run.create_from_pickle
                 (Adapt _ _ _ _ _ Run.old_trial) ["10.0.0.1"] true Run.w0
     = (Raise Py.TypeError, w') /\
     calls _ _ _ _ _ _ w'
     = [GetState _ _ _ _ _ _ 7%nat; SaveAllStates _ _ _ _ _ _ 7%nat;
        MkTempCheckpointDir _ _ _ _ _ _ (Some "/logs/t1");
        CreateFromPickle _ _ _ _ _ _ "state" "/logs/t1/tmp";
        CreateTrainable _ _ _ _ _ _ (mkTrainableCls _ tt 1 3);
        DatetimeNow _ _ _ _ _ _] /\
     trial_runner _ _ _ _ _ _ w' = trial_runner _ _ _ _ _ _ Run.w0).
Proof.
  split; eexists; (split; [vm_compute; reflexivity|]); repeat split.
Qed.



(** ** The theorems at the concrete run *)

Lemma allocation_to_pgf_bundles_witness :
  ["a"; "b"; "a"] <> [] /\
  exists rest,
    allocation_to_pgf GPU ["a"; "b"; "a"]
    = Ok (mkPGF ([("CPU", PyFloat (1 # 100))] :: rest)) /\
    node_entries [("CPU", PyFloat (1 # 100))] = [] /\
    (forall b, In b rest ->
       exists node, In node ["a"; "b"; "a"] /\
                    0 < occurrences ["a"; "b"; "a"] node /\
                    pinned GPU b node (occurrences ["a"; "b"; "a"] node)) /\
    (forall node, In node ["a"; "b"; "a"] ->
       exists b, In b rest /\
                 pinned GPU b node (occurrences ["a"; "b"; "a"] node)).
Proof.
  split; [discriminate|].
  apply (allocation_to_pgf_bundles GPU ["a"; "b"; "a"]). discriminate.
Defined.

Lemma incr_allocation_sizes_witness :
  _num_replicas _ _ _ _ _ Run.first_job = 1 /\
  exists self,
    IncrAllocator_init (test_cluster "10.0.0.1" []) = Ok self /\
    _avail_cpus self = NUM_CPUS_CLUSTER - 1 /\
    cycles _ _ _ _ _ 6 self Run.first_job =
    Ok (map (fun i => Py.replicate "10.0.0.1" (Z.min (2 + Z.of_nat i) 4))
            (seq 0 6)).
Proof.
  split; [reflexivity|].
  destruct (incr_allocation_sizes _ _ _ _ _ "10.0.0.1" [] Run.first_job 6
              eq_refl)
    as (self & Hi & Ha & Hc & _).
  exists self. repeat split; assumption.
Defined.

Lemma num_replicas_is_length_witness :
  ["a"; "b"; "a"] <> [] /\
  exists pgf,
    allocation_to_pgf CPU ["a"; "b"; "a"] = Ok pgf /\
    _pgf_to_num_replicas CPU pgf = 3 /\
    exists cls w',
      _clone_from _ _ _ _ _ _ CPU Run.datetime_now
                  (Adapt _ _ _ _ _ Run.old_trial) ["a"; "b"; "a"] None Run.w0
      = (Raise Py.TypeError, w') /\
      In (CreateTrainable _ _ _ _ _ _ cls) (calls _ _ _ _ _ _ w') /\
      _num_workers _ cls = 3.
Proof.
  assert (H1 : ["a"; "b"; "a"] <> []) by discriminate.
  split; [exact H1|].
  destruct (num_replicas_is_length _ _ _ _ _ _ CPU Run.datetime_now
              ["a"; "b"; "a"] (Adapt _ _ _ _ _ Run.old_trial) None Run.w0 H1)
    as (pgf & Hpgf & Hlen & cls & w' & Hclone & Hcalls & Hn).
  exists pgf. split; [exact Hpgf|]. split; [exact Hlen|].
  exists cls, w'. split; [exact Hclone|]. split; [|exact Hn].
  rewrite Hcalls. apply in_or_app. right. now left.
Defined.


Lemma pause_retains_checkpoint_witness :
  runner _ _ _ (as_Trial _ _ _ _ _ Run.old_trial) = Some 7%nat /\
  exists self' w',
    pause _ _ _ _ _ _ Run.save_all_states Run.mk_temp_checkpoint_dir
          Run.create_from_pickle Run.old_trial Run.w0 = (Ok self', w') /\
    restore_path _ _ _ (as_Trial _ _ _ _ _ self')
    = Some "/logs/t1/tmp/checkpoint" /\
    placement_group_factory _ _ _ (as_Trial _ _ _ _ _ self')
    = Some (mkPGF [ [("CPU", PyFloat (1 # 1000))] ]).
Proof.
  split; [reflexivity|].
  destruct (pause_retains_checkpoint _ _ _ _ _ _ Run.save_all_states
              Run.mk_temp_checkpoint_dir Run.create_from_pickle
              Run.old_trial 7%nat Run.w0 eq_refl)
    as (obj & dir & path & self' & w' & Ho & Hd & Hpath & Hp & _ & Hr & Hpg
        & _).
  exists self', w'. split; [exact Hp|]. split; [|exact Hpg].
  rewrite Hr, Hpath, Hd, Ho. reflexivity.
Defined.


(** ** The further theorems at the concrete run *)

Lemma pgf_roundtrip_permutation_witness :
  ["a"; "b"; "a"] <> [] /\
  Forall (fun node => colon_free node = true) ["a"; "b"; "a"] /\
  exists alloc',
    (pgf <- allocation_to_pgf GPU ["a"; "b"; "a"] ;; pgf_to_allocation GPU pgf)
    = Ok alloc' /\
    Permutation alloc' ["a"; "b"; "a"].
Proof.
  assert (H1 : ["a"; "b"; "a"] <> []) by discriminate.
  assert (H2 : Forall (fun node => colon_free node = true) ["a"; "b"; "a"])
    by (repeat constructor).
  split; [exact H1|]. split; [exact H2|].
  destruct (pgf_roundtrip_permutation GPU ["a"; "b"; "a"] H1 H2)
    as (alloc' & Hrt & Hperm & _).
  exists alloc'. split; assumption.
Defined.

Lemma pgf_roundtrip_canonical_witness :
  ["a"; "b"; "a"] <> [] /\
  Forall (fun node => colon_free node = true) ["a"; "b"; "a"] /\
  exists alloc',
    (pgf <- allocation_to_pgf CPU ["a"; "b"; "a"] ;; pgf_to_allocation CPU pgf)
    = Ok alloc' /\
    allocation_to_pgf CPU alloc' = allocation_to_pgf CPU ["a"; "b"; "a"].
Proof.
  assert (H1 : ["a"; "b"; "a"] <> []) by discriminate.
  assert (H2 : Forall (fun node => colon_free node = true) ["a"; "b"; "a"])
    by (repeat constructor).
  split; [exact H1|]. split; [exact H2|].
  destruct (pgf_roundtrip_canonical CPU ["a"; "b"; "a"] H1 H2)
    as (alloc' & Hrt & Henc & _).
  exists alloc'. split; assumption.
Defined.

Lemma allocation_to_pgf_permutation_witness :
  ["a"; "b"; "a"] <> [] /\
  Permutation ["a"; "b"; "a"] ["b"; "a"; "a"] /\
  exists ra rb,
    allocation_to_pgf GPU ["a"; "b"; "a"]
    = Ok (mkPGF ([("CPU", PyFloat (1 # 100))] :: ra)) /\
    allocation_to_pgf GPU ["b"; "a"; "a"]
    = Ok (mkPGF ([("CPU", PyFloat (1 # 100))] :: rb)) /\
    Permutation ra rb.
Proof.
  assert (H1 : ["a"; "b"; "a"] <> []) by discriminate.
  assert (H2 : Permutation ["a"; "b"; "a"] ["b"; "a"; "a"])
    by apply perm_swap.
  split; [exact H1|]. split; [exact H2|].
  destruct (allocation_to_pgf_permutation GPU _ _ H1 H2)
    as (ra & rb & Ha & Hb & Hp & _).
  exists ra, rb. repeat split; assumption.
Defined.

Lemma allocation_to_pgf_length_witness :
  ["a"; "b"; "a"] <> [] /\
  exists pgf,
    allocation_to_pgf CPU ["a"; "b"; "a"] = Ok pgf /\
    length (_bundles pgf) = S (length (nodup string_dec ["a"; "b"; "a"])).
Proof.
  split; [discriminate|].
  apply (allocation_to_pgf_length CPU ["a"; "b"; "a"]). discriminate.
Defined.

Lemma incr_run_bounds_witness :
  _node_infos Run.incr
  = ("10.0.0.1", mkNodeInfo [("CPU", PyFloat (inject_Z 5))]) :: [] /\
  0 <= _cur_cpus Run.incr /\
  _cur_cpus Run.incr <= _avail_cpus Run.incr /\
  exists sizes,
    incr_run _ _ _ _ _ Run.incr [Run.full_job; Run.first_job; Run.first_job]
    = Ok (map (Py.replicate "10.0.0.1") sizes) /\
    Forall (fun n => 1 <= n <= 4) sizes.
Proof.
  assert (H1 : _node_infos Run.incr
               = ("10.0.0.1", mkNodeInfo [("CPU", PyFloat (inject_Z 5))])
                 :: []) by reflexivity.
  assert (H2 : 0 <= _cur_cpus Run.incr) by (simpl; lia).
  assert (H3 : _cur_cpus Run.incr <= _avail_cpus Run.incr) by (simpl; lia).
  repeat (split; [assumption|]).
  destruct (incr_run_bounds _ _ _ _ _
              [Run.full_job; Run.first_job; Run.first_job] Run.incr
              _ _ _ H1 H2 H3)
    as (sizes & Hr & _ & Hb & _).
  exists sizes. split; assumption.
Defined.

Lemma decr_run_bounds_witness :
  decr_node_infos Run.decr
  = ("10.0.0.1", mkNodeInfo [("CPU", PyFloat (inject_Z 5))]) :: [] /\
  1 <= decr_cur_cpus Run.decr /\
  exists sizes,
    decr_run _ _ _ _ _ Run.decr [Run.full_job; Run.first_job; Run.first_job]
    = Ok (map (Py.replicate "10.0.0.1") sizes) /\
    Forall (fun n => 1 <= n <= 4) sizes.
Proof.
  assert (H1 : decr_node_infos Run.decr
               = ("10.0.0.1", mkNodeInfo [("CPU", PyFloat (inject_Z 5))])
                 :: []) by reflexivity.
  assert (H2 : 1 <= decr_cur_cpus Run.decr) by (simpl; lia).
  repeat (split; [assumption|]).
  destruct (decr_run_bounds _ _ _ _ _
              [Run.full_job; Run.first_job; Run.first_job] Run.decr
              _ _ _ H1 H2)
    as (sizes & Hr & _ & Hb & _).
  exists sizes. split; assumption.
Defined.

Lemma pausing_run_alternates_witness :
  pausing_node_infos Run.pausing
  = ("10.0.0.1", mkNodeInfo [("CPU", PyFloat (inject_Z 5))]) :: [] /\
  exists self',
    pausing_run _ _ _ _ _ Run.pausing
                [Run.first_job; Run.first_job; Run.first_job]
    = (Ok [["10.0.0.1"]; []; ["10.0.0.1"]], self') /\
    _toggle self' = false.
Proof.
  assert (H1 : pausing_node_infos Run.pausing
               = ("10.0.0.1", mkNodeInfo [("CPU", PyFloat (inject_Z 5))])
                 :: []) by reflexivity.
  split; [exact H1|].
  destruct (pausing_run_alternates _ _ _ _ _
              [Run.first_job; Run.first_job; Run.first_job] Run.pausing
              _ _ _ H1)
    as (self' & Hr & Ht & _).
  exists self'. split; [exact Hr | exact Ht].
Defined.

Lemma getstate_state_witness :
  List.NoDup (keys Run.attributes) /\
  ~ In "_trial_in_use" ["_last_result"] /\
  ~ In "_cached_metrics" ["_last_result"] /\
  __getstate__ ["_last_result"] (AttrValue 3%nat) Run.attributes
  = Ok Run.pickled /\
  Py.get Run.pickled "_trial_in_use" = None /\
  Py.get Run.pickled "runner" = Some AttrNone /\
  Py.get Run.pickled "trial_id" = Some (AttrValue 1%nat).
Proof.
  assert (H1 : List.NoDup (keys Run.attributes)).
  { repeat constructor; simpl; intuition discriminate. }
  assert (H2 : ~ In "_trial_in_use" ["_last_result"]).
  { simpl. intuition discriminate. }
  assert (H3 : ~ In "_cached_metrics" ["_last_result"]).
  { simpl. intuition discriminate. }
  assert (H4 : __getstate__ ["_last_result"] (AttrValue 3%nat) Run.attributes
               = Ok Run.pickled) by reflexivity.
  repeat (split; [assumption|]).
  destruct (getstate_state ["_last_result"] (AttrValue 3%nat)
              Run.attributes Run.pickled H1 H2 H3 H4)
    as (Ha & _ & Hb & _ & _ & _ & _ & _ & _ & Hk).
  split; [exact Ha|]. split; [exact Hb|].
  rewrite Hk; [reflexivity | discriminate | discriminate | discriminate | |];
    simpl; intuition discriminate.
Defined.

Lemma requeue_runner_witness :
  List.NoDup (_trials (trial_runner _ _ _ _ _ _ Run.w1)) /\
  listed 0 (trial_runner _ _ _ _ _ _ Run.w1) /\
  ~ listed 1 (trial_runner _ _ _ _ _ _ Run.w1) /\
  exists w',
    _requeue _ _ _ _ _ _ Run.new_trial (Adapt _ _ _ _ _ Run.old_trial) Run.w1
    = (Ok tt, w') /\
    _trials (trial_runner _ _ _ _ _ _ w') = [1%nat].
Proof.
  assert (H1 : List.NoDup (_trials (trial_runner _ _ _ _ _ _ Run.w1))).
  { constructor; [simpl; tauto | constructor]. }
  assert (H2 : listed 0 (trial_runner _ _ _ _ _ _ Run.w1)).
  { left. reflexivity. }
  assert (H3 : ~ listed 1 (trial_runner _ _ _ _ _ _ Run.w1)).
  { intros [H|[]]. discriminate. }
  repeat (split; [assumption|]).
  destruct (requeue_runner _ _ _ _ _ _ Run.new_trial
              (Adapt _ _ _ _ _ Run.old_trial) Run.w1 H1 H2 H3)
    as (w' & Hq & Htr & _).
  exists w'. split; [exact Hq|]. rewrite Htr. reflexivity.
Defined.

Lemma requeue_unlisted_witness :
  ~ listed 0 (trial_runner _ _ _ _ _ _ Run.w_empty) /\
  exists w',
    _requeue _ _ _ _ _ _ Run.new_trial (Adapt _ _ _ _ _ Run.old_trial)
             Run.w_empty
    = (Raise Py.ValueError, w') /\
    calls _ _ _ _ _ _ w' = [StopTrial _ _ _ _ _ _ 0].
Proof.
  assert (H1 : ~ listed 0 (trial_runner _ _ _ _ _ _ Run.w_empty)).
  { intros []. }
  split; [exact H1|].
  destruct (requeue_unlisted _ _ _ _ _ _ Run.new_trial
              (Adapt _ _ _ _ _ Run.old_trial) Run.w_empty H1)
    as (w' & Hq & _ & _ & Hc).
  exists w'. split; [exact Hq | exact Hc].
Defined.

Lemma create_from_TypeError_witness :
  ["10.0.0.1"] <> [] /\
  exists w',
    create_from _ _ _ _ _ _ CPU Run.datetime_now Run.save_all_states
                Run.mk_temp_checkpoint_dir Run.create_from_pickle
                (Adapt _ _ _ _ _ Run.old_trial) ["10.0.0.1"] false Run.w0
    = (Raise Py.TypeError, w') /\
    trial_runner _ _ _ _ _ _ w' = trial_runner _ _ _ _ _ _ Run.w0.
Proof.
  assert (H1 : ["10.0.0.1"] <> []) by discriminate.
  split; [exact H1|].
  destruct (create_from_TypeError _ _ _ _ _ _ CPU Run.datetime_now
              Run.save_all_states Run.mk_temp_checkpoint_dir
              Run.create_from_pickle (Adapt _ _ _ _ _ Run.old_trial)
              ["10.0.0.1"] false Run.w0 H1)
    as (pgf & w' & _ & Hc & Hr & _).
  exists w'. split; [exact Hc | exact Hr].
Defined.

Lemma new_trial_job_info_witness :
  kw_creation_timestamp _ _ Run.new_kwargs = None /\
  exists new w' info,
    AdaptDLTrial_init _ _ _ _ _ _ Run.datetime_now Run.new_kwargs Run.w0
    = (Ok new, w') /\
    creation_timestamp _ _ _ _ _ new = 200 /\
    fst (job_info _ _ _ _ _ _ _ tt 1 8 Run.get_sched_hints new w')
    = Ok (info, new) /\
    job_creation_timestamp _ _ _ info = 200.
Proof.
  split; [reflexivity|].
  destruct (new_trial_job_info _ _ _ _ _ _ _ tt 1 8 Run.datetime_now
              Run.get_sched_hints Run.new_kwargs Run.w0 eq_refl)
    as (new & w' & Hi & _ & _ & _ & _ & _ & _ & _ & _ & Hts & Hinfo).
  destruct (Hinfo w') as (info & Hj & Hjt & _).
  exists new, w', info. split; [exact Hi|]. split; [exact Hts|].
  split; [now rewrite Hj | exact Hjt].
Defined.

Lemma fetch_metrics_cache_witness :
  runner _ _ _ (as_Trial _ _ _ _ _ Run.old_trial) = Some 7%nat /\
  _fetch_metrics _ _ _ _ _ _ Run.get_sched_hints Run.old_trial Run.w0
  = (Ok (Run.get_sched_hints Run.w0 7%nat,
         set_cached_metrics _ _ _ _ _ (Run.get_sched_hints Run.w0 7%nat)
                            Run.old_trial),
     recorded _ _ _ _ _ _ (GetSchedHints _ _ _ _ _ _ 7%nat) Run.w0).
Proof.
  split; [reflexivity|].
  exact (proj1 (fetch_metrics_cache _ _ _ _ _ _ Run.get_sched_hints
                  Run.old_trial 7%nat Run.w0 eq_refl)).
Defined.

Lemma allocation_of_encoded_witness :
  ["10.0.0.1"; "10.0.0.1"; "10.0.0.1"] <> [] /\
  Forall (fun node => colon_free node = true)
         ["10.0.0.1"; "10.0.0.1"; "10.0.0.1"] /\
  allocation_to_pgf CPU ["10.0.0.1"; "10.0.0.1"; "10.0.0.1"]
  = Ok (mkPGF [ [("CPU", PyFloat (1 # 100))];
                [("CPU", PyInt 3); ("node:10.0.0.1", PyFloat (1 # 100))] ]) /\
  exists reported,
    fst (allocation _ _ _ _ _ _ CPU (fun _ _ => true)
           (set_trial_in_use _ _ _ _ _ true Run.new_trial) Run.w1)
    = Ok reported /\
    Permutation reported ["10.0.0.1"; "10.0.0.1"; "10.0.0.1"].
Proof.
  assert (H1 : ["10.0.0.1"; "10.0.0.1"; "10.0.0.1"] <> []) by discriminate.
  assert (H2 : Forall (fun node => colon_free node = true)
                      ["10.0.0.1"; "10.0.0.1"; "10.0.0.1"])
    by (repeat constructor).
  assert (H3 : allocation_to_pgf CPU ["10.0.0.1"; "10.0.0.1"; "10.0.0.1"]
               = Ok (mkPGF [ [("CPU", PyFloat (1 # 100))];
                             [("CPU", PyInt 3);
                              ("node:10.0.0.1", PyFloat (1 # 100))] ]))
    by reflexivity.
  repeat (split; [assumption|]).
  destruct (allocation_of_encoded _ _ _ _ _ _ CPU (fun _ _ => true)
              (set_trial_in_use _ _ _ _ _ true Run.new_trial)
              ["10.0.0.1"; "10.0.0.1"; "10.0.0.1"] _ Run.w1
              H1 H2 H3 eq_refl eq_refl)
    as (reported & Ha & Hp).
  exists reported. split; [now rewrite Ha | exact Hp].
Defined.


Lemma incr_cycles_any_cluster_witness :
  Py.get [("CPU", PyFloat (inject_Z 5))] "CPU" = Some (PyFloat (inject_Z 5)) /\
  cpus (PyFloat (inject_Z 5)) 5 /\
  1 <= 5 /\
  _num_replicas _ _ _ _ _ Run.first_job = 1 /\
  exists self allocs,
    IncrAllocator_init
      [("10.0.0.1", mkNodeInfo [("CPU", PyFloat (inject_Z 5))])] = Ok self /\
    _avail_cpus self = 4 /\
    cycles _ _ _ _ _ 3 self Run.first_job = Ok allocs /\
    map (@length string) allocs = [2; 3; 4]%nat.
Proof.
  assert (H1 : Py.get [("CPU", PyFloat (inject_Z 5))] "CPU"
               = Some (PyFloat (inject_Z 5))) by reflexivity.
  assert (H2 : cpus (PyFloat (inject_Z 5)) 5).
  { split; [reflexivity | lia]. }
  assert (H3 : 1 <= 5) by lia.
  assert (H4 : _num_replicas _ _ _ _ _ Run.first_job = 1) by reflexivity.
  repeat (split; [assumption|]).
  destruct (incr_cycles_any_cluster _ _ _ _ _ "10.0.0.1"
              (mkNodeInfo [("CPU", PyFloat (inject_Z 5))]) []
              (PyFloat (inject_Z 5)) 5 Run.first_job 3 H1 H2 H3 H4)
    as (self & Hi & Ha & Hc).
  exists self. eexists. split; [exact Hi|]. split; [exact Ha|].
  split; [exact Hc | reflexivity].
Defined.

Lemma decr_cycles_any_cluster_witness :
  Py.get [("CPU", PyFloat (inject_Z 5))] "CPU" = Some (PyFloat (inject_Z 5)) /\
  cpus (PyFloat (inject_Z 5)) 5 /\
  2 <= 5 /\
  _num_replicas _ _ _ _ _ Run.full_job = 5 - 1 /\
  exists self allocs,
    DecrAllocator_init
      [("10.0.0.1", mkNodeInfo [("CPU", PyFloat (inject_Z 5))])] = Ok self /\
    decr_cycles _ _ _ _ _ 5 self Run.full_job = Ok allocs /\
    map (@length string) allocs = [3; 2; 1; 1; 1]%nat.
Proof.
  assert (H1 : Py.get [("CPU", PyFloat (inject_Z 5))] "CPU"
               = Some (PyFloat (inject_Z 5))) by reflexivity.
  assert (H2 : cpus (PyFloat (inject_Z 5)) 5).
  { split; [reflexivity | lia]. }
  assert (H3 : 2 <= 5) by lia.
  assert (H4 : _num_replicas _ _ _ _ _ Run.full_job = 5 - 1) by reflexivity.
  repeat (split; [assumption|]).
  destruct (decr_cycles_any_cluster _ _ _ _ _ "10.0.0.1"
              (mkNodeInfo [("CPU", PyFloat (inject_Z 5))]) []
              (PyFloat (inject_Z 5)) 5 Run.full_job 5 H1 H2 H3 H4)
    as (self & Hi & _ & Hc).
  exists self. eexists. split; [exact Hi|]. split; [exact Hc|]. reflexivity.
Defined.
